(** * AC-PC frame construction (ACPC.py, class ACPCLogic)

    Shallow embedding of [get_acpc_points] and [get_acpc_transformation].
    The Python code works on numpy arrays of IEEE doubles.  The kernel is
    written once, over an interface of scalar operations ([NumpyScalar]),
    and read at two instances:

    - [npf], the reals extended with the IEEE special values [Inf] and
      [NaN]: arithmetic on finite values is exact, and a division by zero
      does not raise but yields [NaN] (0/0) or an infinity, as numpy does.
      All theorems about "exact real arithmetic" are stated here.
    - [float], Rocq's primitive binary64 numbers, on which the kernel runs.

    Around the kernel, [ACPCLogic.process] is embedded as the list of calls
    it makes on the scene together with the exception that ends it, and the
    handlers of [ACPCWidget] that keep state ([_updateButtonStates],
    [onCheckboxStateChanged], [cleanup]) as functions on that state. *)

From Stdlib Require Import Floats.
From Stdlib Require Import Reals Lra Psatz List String Bool.
Import ListNotations.

Set Implicit Arguments.

(** ** Scalars *)

(** The operations numpy applies to array elements in ACPC.py. *)
Class NumpyScalar (F : Type) : Type := {
  f_zero : F;
  f_one : F;
  f_two : F;
  f_add : F -> F -> F;
  f_sub : F -> F -> F;
  f_mul : F -> F -> F;
  f_div : F -> F -> F;
  f_neg : F -> F;
  f_abs : F -> F;
  f_sqrt : F -> F;
  f_gtb : F -> F -> bool
}.

(** Extended reals: a finite value, a signed infinity ([Inf true] is
    negative), or not-a-number.  There is a single zero; it behaves as +0. *)
Inductive npf : Type :=
| Fin (r : R)
| Inf (negative : bool)
| NaN.

Definition Rneg_b (r : R) : bool := if Rlt_dec r 0 then true else false.

Definition npf_neg (a : npf) : npf :=
  match a with
  | Fin r => Fin (- r)
  | Inf s => Inf (negb s)
  | NaN => NaN
  end.

Definition npf_add (a b : npf) : npf :=
  match a, b with
  | Fin x, Fin y => Fin (x + y)
  | Fin _, Inf s => Inf s
  | Inf s, Fin _ => Inf s
  | Inf s, Inf t => if Bool.eqb s t then Inf s else NaN
  | _, _ => NaN
  end.

Definition npf_sub (a b : npf) : npf := npf_add a (npf_neg b).

Definition npf_mul (a b : npf) : npf :=
  match a, b with
  | Fin x, Fin y => Fin (x * y)
  | Fin x, Inf s => if Req_dec_T x 0 then NaN else Inf (xorb (Rneg_b x) s)
  | Inf s, Fin y => if Req_dec_T y 0 then NaN else Inf (xorb s (Rneg_b y))
  | Inf s, Inf t => Inf (xorb s t)
  | _, _ => NaN
  end.

Definition npf_div (a b : npf) : npf :=
  match a, b with
  | Fin x, Fin y =>
      if Req_dec_T y 0
      then (if Req_dec_T x 0 then NaN else Inf (Rneg_b x))
      else Fin (x / y)
  | Fin _, Inf _ => Fin 0
  | Inf s, Fin y => Inf (xorb s (Rneg_b y))
  | _, _ => NaN
  end.

Definition npf_abs (a : npf) : npf :=
  match a with
  | Fin r => Fin (Rabs r)
  | Inf _ => Inf false
  | NaN => NaN
  end.

Definition npf_sqrt (a : npf) : npf :=
  match a with
  | Fin r => if Rlt_dec r 0 then NaN else Fin (R_sqrt.sqrt r)
  | Inf false => Inf false
  | _ => NaN
  end.

Definition npf_gtb (a b : npf) : bool :=
  match a, b with
  | Fin x, Fin y => if Rgt_dec x y then true else false
  | Inf false, Fin _ => true
  | Fin _, Inf true => true
  | Inf false, Inf true => true
  | _, _ => false
  end.

(** Exact arithmetic: no rounding, no overflow, no underflow.  It is the
    reading of the code in which its geometry holds exactly; on doubles a
    cross product that is zero here can come out as a small non-zero
    number, and the code then divides by it instead of producing NaN. *)
#[export] Instance exact_scalar : NumpyScalar npf := {
  f_zero := Fin 0;
  f_one := Fin 1;
  f_two := Fin 2;
  f_add := npf_add;
  f_sub := npf_sub;
  f_mul := npf_mul;
  f_div := npf_div;
  f_neg := npf_neg;
  f_abs := npf_abs;
  f_sqrt := npf_sqrt;
  f_gtb := npf_gtb
}.

(** Binary64 arithmetic, each operation rounded on its own.  A numpy build
    whose BLAS fuses a multiplication with an addition can differ from it
    in the last digit of [np_dot] and [np_linalg_norm]; where every operand
    is 0 or NaN, as for coincident points, the two agree. *)
#[export] Instance float64_scalar : NumpyScalar float := {
  f_zero := 0%float;
  f_one := 1%float;
  f_two := 2%float;
  f_add := PrimFloat.add;
  f_sub := PrimFloat.sub;
  f_mul := PrimFloat.mul;
  f_div := PrimFloat.div;
  f_neg := PrimFloat.opp;
  f_abs := PrimFloat.abs;
  f_sqrt := PrimFloat.sqrt;
  f_gtb := fun a b => PrimFloat.ltb b a
}.

(** ** Arrays *)

(** A position of the host (three doubles) and a numpy array of shape (3,). *)
Record vec3 (F : Type) : Type := V3 { c0 : F; c1 : F; c2 : F }.

Arguments V3 {F} _ _ _.

(** A numpy array of shape (3,3), by rows. *)
Record mat3 (F : Type) : Type := M3 { r0 : vec3 F; r1 : vec3 F; r2 : vec3 F }.

Arguments M3 {F} _ _ _.

(** A numpy array of shape (4,4), by rows. *)
Definition mat4 (F : Type) : Type := list (list F).

(** Python's exceptions, as far as the kernel raises them. *)
Inductive exn : Type :=
| ValueError (msg : string).

Inductive result (A : Type) : Type :=
| Ok (a : A)
| Raise (e : exn).

Arguments Ok {A} _.
Arguments Raise {A} _.

Section Kernel.

Context {F : Type} `{NumpyScalar F}.

Definition vec_sub (a b : vec3 F) : vec3 F :=
  V3 (f_sub (c0 a) (c0 b)) (f_sub (c1 a) (c1 b)) (f_sub (c2 a) (c2 b)).

Definition vec_add (a b : vec3 F) : vec3 F :=
  V3 (f_add (c0 a) (c0 b)) (f_add (c1 a) (c1 b)) (f_add (c2 a) (c2 b)).

(** [a / s] and [a /= s], an array by a scalar. *)
Definition vec_div (a : vec3 F) (s : F) : vec3 F :=
  V3 (f_div (c0 a) s) (f_div (c1 a) s) (f_div (c2 a) s).

(** Unary minus on an array. *)
Definition vec_neg (a : vec3 F) : vec3 F :=
  V3 (f_neg (c0 a)) (f_neg (c1 a)) (f_neg (c2 a)).

(** [np.abs]. *)
Definition np_abs (a : vec3 F) : vec3 F :=
  V3 (f_abs (c0 a)) (f_abs (c1 a)) (f_abs (c2 a)).

(** [np.dot] of two arrays of shape (3,). *)
Definition np_dot (a b : vec3 F) : F :=
  f_add (f_add (f_mul (c0 a) (c0 b)) (f_mul (c1 a) (c1 b)))
        (f_mul (c2 a) (c2 b)).

(** [np.linalg.norm] of an array of shape (3,): the square root of the
    array's dot product with itself. *)
Definition np_linalg_norm (a : vec3 F) : F := f_sqrt (np_dot a a).

(** [np.cross] of two arrays of shape (3,). *)
Definition np_cross (a b : vec3 F) : vec3 F :=
  V3 (f_sub (f_mul (c1 a) (c2 b)) (f_mul (c2 a) (c1 b)))
     (f_sub (f_mul (c2 a) (c0 b)) (f_mul (c0 a) (c2 b)))
     (f_sub (f_mul (c0 a) (c1 b)) (f_mul (c1 a) (c0 b))).

(** [np.vstack] of three arrays of shape (3,). *)
Definition np_vstack (x y z : vec3 F) : mat3 F := M3 x y z.

(** [np.dot] of an array of shape (3,3) and one of shape (3,). *)
Definition np_dot_mv (m : mat3 F) (v : vec3 F) : vec3 F :=
  V3 (np_dot (r0 m) v) (np_dot (r1 m) v) (np_dot (r2 m) v).

(** [np.eye n]. *)
Definition np_eye (n : nat) : mat4 F :=
  map (fun i => map (fun j => if Nat.eqb i j then f_one else f_zero) (seq 0 n))
      (seq 0 n).

(** Replace the first three elements of a row. *)
Definition set_prefix3 (row : list F) (v : vec3 F) : list F :=
  [c0 v; c1 v; c2 v] ++ skipn 3 row.

(** Replace the element of index 3 of a row. *)
Definition set_index3 (row : list F) (x : F) : list F :=
  firstn 3 row ++ x :: skipn 4 row.

(** [matrix[:3, :3] = rotation]. *)
Definition assign_block (m : mat4 F) (rot : mat3 F) : mat4 F :=
  match m with
  | a :: b :: c :: rest =>
      set_prefix3 a (r0 rot) :: set_prefix3 b (r1 rot)
        :: set_prefix3 c (r2 rot) :: rest
  | _ => m
  end.

(** [matrix[:3, 3] = translation]. *)
Definition assign_column (m : mat4 F) (t : vec3 F) : mat4 F :=
  match m with
  | a :: b :: c :: rest =>
      set_index3 a (c0 t) :: set_index3 b (c1 t)
        :: set_index3 c (c2 t) :: rest
  | _ => m
  end.

(** The markups line of the host, reduced to the two getters the code calls. *)
Record MarkupsLine : Type := Line {
  GetLineStartPosition : vec3 F;
  GetLineEndPosition : vec3 F
}.

(** [ACPCLogic.get_acpc_points]. *)
Definition get_acpc_points (acpcLine : MarkupsLine) : vec3 F * vec3 F :=
  if f_gtb (c1 (GetLineStartPosition acpcLine))
           (c1 (GetLineEndPosition acpcLine))
  then (GetLineStartPosition acpcLine, GetLineEndPosition acpcLine)
  else (GetLineEndPosition acpcLine, GetLineStartPosition acpcLine).

(** [ACPCLogic.get_acpc_transformation].  The branches on [center_on]
    either select the centre or raise; the host's
    [slicer.util.vtkMatrixFromArray] copies the sixteen entries into a
    vtkMatrix4x4, and the matrix is kept as the array here. *)
Definition get_acpc_transformation (ac pc ih : vec3 F) (center_on : string)
  : result (mat4 F) :=
  (* Y axis *)
  let pcAc := vec_sub ac pc in
  let yAxis := vec_div pcAc (np_linalg_norm pcAc) in
  (* X axis *)
  let acIhDir := np_abs (vec_sub ih ac) in
  let xAxis := np_cross yAxis acIhDir in
  let xAxis := vec_div xAxis (np_linalg_norm xAxis) in
  (* Z axis *)
  let zAxis := np_cross xAxis yAxis in
  (* Rotation *)
  let rotation := np_vstack xAxis yAxis zAxis in
  match
    (if String.eqb center_on "MC" then Ok (vec_div (vec_add ac pc) f_two)
     else if String.eqb center_on "AC" then Ok ac
     else if String.eqb center_on "PC" then Ok pc
     else Raise (ValueError "center_on must be 'MC', 'AC', or 'PC'"))
  with
  | Raise e => Raise e
  | Ok center_on =>
      let translation := vec_neg (np_dot_mv rotation center_on) in
      (* Build matrix *)
      let matrix := np_eye 4 in
      let matrix := assign_block matrix rotation in
      let matrix := assign_column matrix translation in
      Ok matrix
  end.

(** [ACPCLogic.process], up to the matrix it hands to the output transform
    node: the end points of the line are classified and the kernel is called
    with the first control point of the midline markup.  The guard on a
    missing line or markup comes before and is the caller's. *)
Definition process_transform (acpcLine : MarkupsLine) (ih : vec3 F)
    (centerOn : string) : result (mat4 F) :=
  let '(ac, pc) := get_acpc_points acpcLine in
  get_acpc_transformation ac pc ih centerOn.

End Kernel.

Arguments MarkupsLine F : clear implicits.
Arguments Line {F} _ _.

(** ** Reading the returned matrix *)

Section Reading.

Context {F : Type} `{NumpyScalar F}.

(** [m[i][j]]. *)
Definition entry (m : mat4 F) (i j : nat) : F := nth j (nth i m []) f_zero.

(** Row [i] of the rotation block [m[:3, :3]]. *)
Definition rotation_row (m : mat4 F) (i : nat) : vec3 F :=
  V3 (entry m i 0) (entry m i 1) (entry m i 2).

Definition rotation_block (m : mat4 F) : mat3 F :=
  M3 (rotation_row m 0) (rotation_row m 1) (rotation_row m 2).

(** The translation column [m[:3, 3]]. *)
Definition translation_column (m : mat4 F) : vec3 F :=
  V3 (entry m 0 3) (entry m 1 3) (entry m 2 3).

(** The last row [m[3]]. *)
Definition bottom_row (m : mat4 F) : list F := nth 3 m [].

(** The transform applied to a point: the first three components of the
    product of [m] with the homogeneous column [(p, 1)]. *)
Definition apply_transform (m : mat4 F) (p : vec3 F) : vec3 F :=
  V3 (f_add (np_dot (rotation_row m 0) p) (f_mul (entry m 0 3) f_one))
     (f_add (np_dot (rotation_row m 1) p) (f_mul (entry m 1 3) f_one))
     (f_add (np_dot (rotation_row m 2) p) (f_mul (entry m 2 3) f_one)).

(** The frame of the specification: [normalize v] is [v] over its norm. *)
Definition normalize (v : vec3 F) : vec3 F := vec_div v (np_linalg_norm v).

Definition spec_y (ac pc : vec3 F) : vec3 F := normalize (vec_sub ac pc).

Definition spec_x (ac pc ih : vec3 F) : vec3 F :=
  normalize (np_cross (spec_y ac pc) (np_abs (vec_sub ih ac))).

Definition spec_z (ac pc ih : vec3 F) : vec3 F :=
  np_cross (spec_x ac pc ih) (spec_y ac pc).

(** The origin the specification selects for a recognised mode. *)
Definition spec_origin (ac pc : vec3 F) (center_on : string) : vec3 F :=
  if String.eqb center_on "MC" then vec_div (vec_add ac pc) f_two
  else if String.eqb center_on "AC" then ac
  else pc.

(** The parts of [get_acpc_transformation]: its rotation, the centre its
    branches select, and the matrix it assembles from the two. *)
Definition acpc_rotation (ac pc ih : vec3 F) : mat3 F :=
  let yAxis := vec_div (vec_sub ac pc) (np_linalg_norm (vec_sub ac pc)) in
  let xAxis := np_cross yAxis (np_abs (vec_sub ih ac)) in
  let xAxis := vec_div xAxis (np_linalg_norm xAxis) in
  M3 xAxis yAxis (np_cross xAxis yAxis).

Definition acpc_center (ac pc : vec3 F) (center_on : string)
  : result (vec3 F) :=
  if String.eqb center_on "MC" then Ok (vec_div (vec_add ac pc) f_two)
  else if String.eqb center_on "AC" then Ok ac
  else if String.eqb center_on "PC" then Ok pc
  else Raise (ValueError "center_on must be 'MC', 'AC', or 'PC'").

Definition assembled (rot : mat3 F) (center : vec3 F) : mat4 F :=
  assign_column (assign_block (np_eye 4) rot) (vec_neg (np_dot_mv rot center)).

End Reading.

Definition recognized (center_on : string) : Prop :=
  center_on = "MC"%string \/ center_on = "AC"%string \/ center_on = "PC"%string.

(** ** Real vectors *)

Open Scope R_scope.

(** A finite point, as the array of its coordinates. *)
Definition fin3 (v : vec3 R) : vec3 npf :=
  V3 (Fin (c0 v)) (Fin (c1 v)) (Fin (c2 v)).

Definition nan3 : vec3 npf := V3 NaN NaN NaN.

(** The same on binary64 numbers. *)
Definition fnan3 : vec3 float := V3 nan nan nan.

Definition Rsub3 (a b : vec3 R) : vec3 R :=
  V3 (c0 a - c0 b) (c1 a - c1 b) (c2 a - c2 b).

Definition Rabs3 (a : vec3 R) : vec3 R :=
  V3 (Rabs (c0 a)) (Rabs (c1 a)) (Rabs (c2 a)).

Definition Rdot3 (a b : vec3 R) : R :=
  c0 a * c0 b + c1 a * c1 b + c2 a * c2 b.

Definition Rcross3 (a b : vec3 R) : vec3 R :=
  V3 (c1 a * c2 b - c2 a * c1 b)
     (c2 a * c0 b - c0 a * c2 b)
     (c0 a * c1 b - c1 a * c0 b).

Definition Rnorm3 (a : vec3 R) : R := R_sqrt.sqrt (Rdot3 a a).

Definition Rdiv3 (a : vec3 R) (s : R) : vec3 R :=
  V3 (c0 a / s) (c1 a / s) (c2 a / s).

Definition Rzero3 : vec3 R := V3 0 0 0.

(** [ih] lies on the line through [ac] and [pc]. *)
Definition collinear (ac pc ih : vec3 R) : Prop :=
  Rcross3 (Rsub3 ih ac) (Rsub3 pc ac) = Rzero3.

(** The line of the host with two finite end points. *)
Definition line_of (s e : vec3 R) : MarkupsLine npf := Line (fin3 s) (fin3 e).

(** The three axes as real vectors, for [ac <> pc] and a non-zero cross
    product. *)
Definition frame_y (a p : vec3 R) : vec3 R :=
  Rdiv3 (Rsub3 a p) (Rnorm3 (Rsub3 a p)).

Definition frame_cross (a p i : vec3 R) : vec3 R :=
  Rcross3 (frame_y a p) (Rabs3 (Rsub3 i a)).

Definition frame_x (a p i : vec3 R) : vec3 R :=
  Rdiv3 (frame_cross a p i) (Rnorm3 (frame_cross a p i)).

Definition frame_z (a p i : vec3 R) : vec3 R :=
  Rcross3 (frame_x a p i) (frame_y a p).

(** The condition under which the code's second normalisation divides by a
    non-zero norm: [|ih - ac|] is not parallel to [ac - pc]. *)
Definition abs_offset_independent (a p i : vec3 R) : Prop :=
  Rcross3 (Rsub3 a p) (Rabs3 (Rsub3 i a)) <> Rzero3.

Definition Radd3 (a b : vec3 R) : vec3 R :=
  V3 (c0 a + c0 b) (c1 a + c1 b) (c2 a + c2 b).

(** The origin of a mode over the reals. *)
Definition origin_of (a p : vec3 R) (center_on : string) : vec3 R :=
  if String.eqb center_on "MC" then Rdiv3 (Radd3 a p) 2
  else if String.eqb center_on "AC" then a
  else p.

(** The scenario of the specification. *)
Definition scenario_ac : vec3 R := V3 0 10 0.
Definition scenario_pc : vec3 R := V3 0 (-10) 0.
Definition scenario_ih : vec3 R := V3 10 0 0.

(** An input off the AC-PC line whose absolute offset from AC is parallel
    to the line. *)
Definition skew_ac : vec3 R := V3 1 1 0.
Definition skew_pc : vec3 R := V3 0 0 0.
Definition skew_ih : vec3 R := V3 2 0 0.

(** An input on the AC-PC line, the line's direction having components of
    both signs. *)
Definition online_ac : vec3 R := V3 1 (-1) 0.
Definition online_pc : vec3 R := V3 0 0 0.
Definition online_ih : vec3 R := V3 2 (-2) 0.

(** ** Quantities used to state further properties of the kernel *)

Section Determinant.

Context {F : Type} `{NumpyScalar F}.

(** The determinant of an array of shape (3,3), expanded along its first
    row. *)
Definition det3 (m : mat3 F) : F :=
  f_add
    (f_sub
       (f_mul (c0 (r0 m))
          (f_sub (f_mul (c1 (r1 m)) (c2 (r2 m)))
                 (f_mul (c2 (r1 m)) (c1 (r2 m)))))
       (f_mul (c1 (r0 m))
          (f_sub (f_mul (c0 (r1 m)) (c2 (r2 m)))
                 (f_mul (c2 (r1 m)) (c0 (r2 m))))))
    (f_mul (c2 (r0 m))
       (f_sub (f_mul (c0 (r1 m)) (c1 (r2 m)))
              (f_mul (c1 (r1 m)) (c0 (r2 m))))).

End Determinant.

Definition Rscale3 (s : R) (a : vec3 R) : vec3 R :=
  V3 (s * c0 a) (s * c1 a) (s * c2 a).

(** The image of the point [q] under the transform of rotation rows
    [x], [y], [z] centred on [o]. *)
Definition Rimage (x y z o q : vec3 R) : vec3 R :=
  V3 (Rdot3 x (Rsub3 q o)) (Rdot3 y (Rsub3 q o)) (Rdot3 z (Rsub3 q o)).

(** ** The scene around the kernel: [ACPCLogic.process] *)

(** A node of the scene, named by the ID its [GetID] returns. *)
Definition node_id : Type := string.

(** What [process] can raise: a ValueError, its own or the kernel's, or the
    AttributeError of a method looked up on None. *)
Inductive process_exn : Type :=
| OfValueError (e : exn)
| AttributeError (attribute : string).

Section Process.

Context {F : Type} `{NumpyScalar F}.

(** The markups line node: its ID and the two positions it reports. *)
Record LineNode : Type := {
  line_id : node_id;
  line_of_node : MarkupsLine F
}.

(** The markups fiducial node: its ID and its control point getter. *)
Record FiducialNode : Type := {
  fiducial_id : node_id;
  GetNthControlPointPosition : nat -> vec3 F
}.

(** The calls [process] makes that leave a mark outside it, in the order it
    makes them. *)
Inductive host_call : Type :=
| print_folder (folderNode : option node_id)
| SetMatrixTransformToParent (outputTransform : node_id) (matrix : mat4 F)
| SetAndObserveTransformNodeID (receiver : node_id) (transformID : node_id)
| setSliceOrientation (sliceWidget : string) (orientation : string).

(** What [process] reads from the scene and the application.
    [red_foreground] is the node the two lookups through the red composite
    node end at, None when the composite node, the volume ID or the volume
    is missing.  [folder_items] lists the items [GetItemChildren] reports
    below a folder, each with its data node, if any, and the answer of
    [IsA("vtkMRMLTransformableNode")].  [slice_widgets] is None without a
    layout manager, and otherwise tells which slice widgets exist. *)
Record Scene : Type := {
  red_foreground : option node_id;
  red_background : option node_id;
  folder_items : node_id -> list (option (node_id * bool));
  slice_widgets : option (string -> bool)
}.

(** One [try: ... except: pass] block on a volume of the red view. *)
Definition observe_volume (volume : option node_id) (transformID : node_id)
  : list host_call :=
  match volume with
  | Some v => [SetAndObserveTransformNodeID v transformID]
  | None => []
  end.

(** The loop over the items of the folder. *)
Fixpoint observe_items (items : list (option (node_id * bool)))
    (transformID : node_id) : list host_call :=
  match items with
  | [] => []
  | Some (associatedNode, true) :: rest =>
      SetAndObserveTransformNodeID associatedNode transformID
        :: observe_items rest transformID
  | _ :: rest => observe_items rest transformID
  end.

(** The three calls that reset the slice views, up to the first that fails
    on a missing layout manager or a missing slice widget. *)
Fixpoint reset_slice_views (widgets : option (string -> bool))
    (views : list (string * string))
  : list host_call * option process_exn :=
  match views with
  | [] => ([], None)
  | (name, orientation) :: rest =>
      match widgets with
      | None => ([], Some (AttributeError "sliceWidget"))
      | Some exists_widget =>
          if exists_widget name
          then
            let '(calls, outcome) := reset_slice_views widgets rest in
            (setSliceOrientation name orientation :: calls, outcome)
          else ([], Some (AttributeError "setSliceOrientation"))
      end
  end.

Definition canonical_views : list (string * string) :=
  [("Red", "Axial"); ("Green", "Coronal"); ("Yellow", "Sagittal")]%string.

(** [ACPCLogic.process]: the calls made, in order, and the exception that
    ended the run, if any.  A call on a node, widget or manager that exists
    is taken to return normally; what raises is Python's lookup of a method
    on None, and the two ValueErrors. *)
Definition process (scene : Scene) (acpcLine : option LineNode)
    (midlinePoints : option FiducialNode) (outputTransform : option node_id)
    (centerOn : string) (folderNode : option node_id)
  : list host_call * option process_exn :=
  let printed := [print_folder folderNode] in
  match acpcLine, midlinePoints with
  | Some line, Some midline =>
      let '(ac, pc) := get_acpc_points (line_of_node line) in
      let ih := GetNthControlPointPosition midline 0 in
      match get_acpc_transformation ac pc ih centerOn with
      | Raise e => (printed, Some (OfValueError e))
      | Ok transform =>
          match outputTransform with
          | None =>
              (printed, Some (AttributeError "SetMatrixTransformToParent"))
          | Some output =>
              let applied :=
                [SetMatrixTransformToParent output transform;
                 SetAndObserveTransformNodeID (line_id line) output;
                 SetAndObserveTransformNodeID (fiducial_id midline) output]
                ++ observe_volume (red_foreground scene) output
                ++ observe_volume (red_background scene) output
                ++ match folderNode with
                   | Some folder =>
                       observe_items (folder_items scene folder) output
                   | None => []
                   end in
              let '(reset, outcome) :=
                reset_slice_views (slice_widgets scene) canonical_views in
              (printed ++ applied ++ reset, outcome)
          end
      end
  | _, _ =>
      (printed,
       Some (OfValueError
               (ValueError
                  "You must provide both an AC-PC line and a midline plane.")))
  end.

End Process.

Arguments LineNode F : clear implicits.
Arguments FiducialNode F : clear implicits.
Arguments host_call F : clear implicits.

(** ** The widget: [ACPCWidget] *)

(** The two node selections of the parameter node that the widget tests. *)
Record ParameterNode : Type := {
  pn_acpcLine : option node_id;
  pn_midlinePoints : option node_id
}.

(** The properties of the Apply button and of the real-time update check
    box that [_updateButtonStates] reads and writes. *)
Record Buttons : Type := {
  applyButton_enabled : bool;
  applyButton_toolTip : string;
  realTimeUpdate_checked : bool;
  realTimeUpdate_enabled : bool
}.

(** [ACPCWidget._checkInputsValid]. *)
Definition _checkInputsValid (p : ParameterNode) : bool :=
  match pn_acpcLine p with
  | None => false
  | Some _ =>
      match pn_midlinePoints p with
      | None => false
      | Some _ => true
      end
  end.

(** [ACPCWidget._updateButtonStates], on the properties of the two
    controls.  The [stateChanged] signal the host sends when [setChecked]
    changes the box is handled by [onCheckboxStateChanged], which touches
    none of these properties. *)
Definition _updateButtonStates (p : ParameterNode) (ui : Buttons) : Buttons :=
  let ui :=
    if negb (_checkInputsValid p)
    then {| applyButton_enabled := false;
            applyButton_toolTip := applyButton_toolTip ui;
            realTimeUpdate_checked := false;
            realTimeUpdate_enabled := false |}
    else if realTimeUpdate_checked ui
    then {| applyButton_enabled := false;
            applyButton_toolTip := applyButton_toolTip ui;
            realTimeUpdate_checked := realTimeUpdate_checked ui;
            realTimeUpdate_enabled := true |}
    else {| applyButton_enabled := true;
            applyButton_toolTip := applyButton_toolTip ui;
            realTimeUpdate_checked := realTimeUpdate_checked ui;
            realTimeUpdate_enabled := true |} in
  if applyButton_enabled ui
  then {| applyButton_enabled := applyButton_enabled ui;
          applyButton_toolTip := "Compute AC-PC transformation";
          realTimeUpdate_checked := realTimeUpdate_checked ui;
          realTimeUpdate_enabled := realTimeUpdate_enabled ui |}
  else ui.

(** The tag [AddObserver] returns. *)
Definition tag : Type := nat.

(** The two observer fields of the widget. *)
Record Observers : Type := {
  acpc_observer : option tag;
  midpoint_observer : option tag
}.

(** The calls the check box handler and [cleanup] make, in order; an
    [AddObserver] is recorded with the tag the host returned for it. *)
Inductive widget_call : Type :=
| AddObserver (node : node_id) (returned : tag)
| RemoveObserver (node : node_id) (observer : option tag)
| removeObservers
| onApplyButton.

(** [ACPCWidget.onCheckboxStateChanged].  [line] and [midline] are the
    current nodes of the two selectors, [tag_line] and [tag_midline] the
    tags the host returns if asked to add observers, and [apply_outcome]
    the exception [onApplyButton] lets through, if any.  The result is the
    new fields, the calls made, and the exception that ended the handler:
    that of Apply, or the AttributeError of a method looked up on a missing
    current node. *)
Definition onCheckboxStateChanged (state : Z) (line midline : option node_id)
    (tag_line tag_midline : tag) (apply_outcome : option process_exn)
    (w : Observers)
  : Observers * list widget_call * option process_exn :=
  if (Z.eqb state 2
      && match acpc_observer w with None => true | Some _ => false end
      && match midpoint_observer w with None => true | Some _ => false end)%bool
  then
    match line with
    | None => (w, [], Some (AttributeError "AddObserver"))
    | Some l =>
        let w := {| acpc_observer := Some tag_line;
                    midpoint_observer := midpoint_observer w |} in
        match midline with
        | None => (w, [AddObserver l tag_line],
                   Some (AttributeError "AddObserver"))
        | Some k =>
            ({| acpc_observer := acpc_observer w;
                midpoint_observer := Some tag_midline |},
             [AddObserver l tag_line; AddObserver k tag_midline;
              onApplyButton],
             apply_outcome)
        end
    end
  else if Z.eqb state 0
  then
    match line with
    | None => (w, [], Some (AttributeError "RemoveObserver"))
    | Some l =>
        match midline with
        | None => (w, [RemoveObserver l (acpc_observer w)],
                   Some (AttributeError "RemoveObserver"))
        | Some k =>
            ({| acpc_observer := None; midpoint_observer := None |},
             [RemoveObserver l (acpc_observer w);
              RemoveObserver k (midpoint_observer w)],
             None)
        end
    end
  else (w, [], None).

(** [ACPCWidget.cleanup]. *)
Definition cleanup (line midline : option node_id) (w : Observers)
  : Observers * list widget_call * option process_exn :=
  let calls := [removeObservers] in
  match
    match acpc_observer w with
    | None => (w, calls, None)
    | Some t =>
        match line with
        | None => (w, calls, Some (AttributeError "RemoveObserver"))
        | Some l =>
            ({| acpc_observer := None;
                midpoint_observer := midpoint_observer w |},
             calls ++ [RemoveObserver l (Some t)], None)
        end
    end
  with
  | (w, calls, Some e) => (w, calls, Some e)
  | (w, calls, None) =>
      match midpoint_observer w with
      | None => (w, calls, None)
      | Some t =>
          match midline with
          | None => (w, calls, Some (AttributeError "RemoveObserver"))
          | Some k =>
              ({| acpc_observer := acpc_observer w;
                  midpoint_observer := None |},
               calls ++ [RemoveObserver k (Some t)], None)
          end
      end
  end.

(** Both observer fields are set or neither is. *)
Definition paired (w : Observers) : Prop :=
  acpc_observer w = None <-> midpoint_observer w = None.

(** ** The exact scalars on finite values *)

Lemma Rdot3_self_nonneg (v : vec3 R) : 0 <= Rdot3 v v.
Proof. destruct v as [x y z]; unfold Rdot3; simpl; nra. Qed.

Lemma Rdot3_self_zero (v : vec3 R) : Rdot3 v v = 0 -> v = Rzero3.
Proof.
  destruct v as [x y z]; unfold Rdot3, Rzero3; simpl; intros E.
  assert (x = 0) by nra. assert (y = 0) by nra. assert (z = 0) by nra.
  subst; reflexivity.
Qed.

Lemma Rnorm3_pos (v : vec3 R) : v <> Rzero3 -> 0 < Rnorm3 v.
Proof.
  intros Hv. unfold Rnorm3. apply sqrt_lt_R0.
  destruct (Rdot3_self_nonneg v) as [Hlt | Heq]; [exact Hlt |].
  exfalso; apply Hv, Rdot3_self_zero; symmetry; exact Heq.
Qed.

Lemma Rnorm3_sqr (v : vec3 R) : Rnorm3 v * Rnorm3 v = Rdot3 v v.
Proof. unfold Rnorm3. apply sqrt_sqrt, Rdot3_self_nonneg. Qed.

Lemma Rnorm3_zero : Rnorm3 Rzero3 = 0.
Proof.
  unfold Rnorm3, Rdot3, Rzero3; simpl.
  replace (0 * 0 + 0 * 0 + 0 * 0) with 0 by ring. apply sqrt_0.
Qed.

Lemma Rsub3_nonzero (a p : vec3 R) : a <> p -> Rsub3 a p <> Rzero3.
Proof.
  destruct a as [a0 a1 a2], p as [p0 p1 p2]; unfold Rsub3, Rzero3; simpl.
  intros Hne E; injection E as E0 E1 E2; apply Hne; f_equal; lra.
Qed.

Lemma npf_sqrt_fin (r : R) :
  0 <= r -> npf_sqrt (Fin r) = Fin (R_sqrt.sqrt r).
Proof. intros Hr; simpl; destruct (Rlt_dec r 0); [lra | reflexivity]. Qed.

Lemma npf_div_fin (x y : R) :
  y <> 0 -> npf_div (Fin x) (Fin y) = Fin (x / y).
Proof.
  intros Hy; simpl.
  destruct (Req_dec_T y 0); [contradiction | reflexivity].
Qed.

Lemma npf_div_zero_zero : npf_div (Fin 0) (Fin 0) = NaN.
Proof.
  simpl; destruct (Req_dec_T 0 0) as [_ | N]; [reflexivity |].
  contradiction N; reflexivity.
Qed.

Lemma vec_sub_fin (a b : vec3 R) :
  vec_sub (fin3 a) (fin3 b) = fin3 (Rsub3 a b).
Proof. reflexivity. Qed.

Lemma np_abs_fin (a : vec3 R) : np_abs (fin3 a) = fin3 (Rabs3 a).
Proof. reflexivity. Qed.

Lemma np_cross_fin (a b : vec3 R) :
  np_cross (fin3 a) (fin3 b) = fin3 (Rcross3 a b).
Proof. reflexivity. Qed.

Lemma np_dot_fin (a b : vec3 R) : np_dot (fin3 a) (fin3 b) = Fin (Rdot3 a b).
Proof. reflexivity. Qed.

Lemma np_linalg_norm_fin (v : vec3 R) :
  np_linalg_norm (fin3 v) = Fin (Rnorm3 v).
Proof.
  unfold np_linalg_norm. rewrite np_dot_fin.
  apply (npf_sqrt_fin (Rdot3_self_nonneg v)).
Qed.

Lemma vec_div_fin (v : vec3 R) (s : R) :
  s <> 0 -> vec_div (fin3 v) (Fin s) = fin3 (Rdiv3 v s).
Proof.
  intros Hs. unfold vec_div, fin3, Rdiv3; cbn [c0 c1 c2 f_div exact_scalar].
  rewrite !npf_div_fin by exact Hs. reflexivity.
Qed.

Lemma normalize_fin (v : vec3 R) :
  v <> Rzero3 -> normalize (fin3 v) = fin3 (Rdiv3 v (Rnorm3 v)).
Proof.
  intros Hv. unfold normalize. rewrite np_linalg_norm_fin.
  apply vec_div_fin. pose proof (Rnorm3_pos Hv). lra.
Qed.

Lemma normalize_zero : normalize (fin3 Rzero3) = nan3.
Proof.
  unfold normalize. rewrite np_linalg_norm_fin, Rnorm3_zero.
  unfold vec_div, fin3, Rzero3, nan3; cbn [c0 c1 c2 f_div exact_scalar].
  rewrite npf_div_zero_zero. reflexivity.
Qed.

(** ** The cross product the code normalises *)

Lemma Rcross3_div_l (v d : vec3 R) (s : R) :
  s <> 0 -> Rcross3 (Rdiv3 v s) d = Rdiv3 (Rcross3 v d) s.
Proof.
  intros Hs. destruct v as [v0 v1 v2], d as [d0 d1 d2].
  unfold Rcross3, Rdiv3; simpl. f_equal; field; exact Hs.
Qed.

Lemma Rdiv3_zero (s : R) : Rdiv3 Rzero3 s = Rzero3.
Proof. unfold Rdiv3, Rzero3; simpl. f_equal; unfold Rdiv; ring. Qed.

Lemma Rdiv3_eq_zero (v : vec3 R) (s : R) :
  s <> 0 -> Rdiv3 v s = Rzero3 -> v = Rzero3.
Proof.
  intros Hs. destruct v as [v0 v1 v2]; unfold Rdiv3, Rzero3; simpl.
  intros E; injection E as E0 E1 E2.
  f_equal.
  - replace v0 with (v0 / s * s) by (field; exact Hs). rewrite E0; ring.
  - replace v1 with (v1 / s * s) by (field; exact Hs). rewrite E1; ring.
  - replace v2 with (v2 / s * s) by (field; exact Hs). rewrite E2; ring.
Qed.

Lemma frame_cross_nonzero (a p i : vec3 R) :
  a <> p -> abs_offset_independent a p i -> frame_cross a p i <> Rzero3.
Proof.
  intros Hap Hind E. apply Hind.
  pose proof (Rnorm3_pos (Rsub3_nonzero Hap)) as Hn.
  unfold frame_cross, frame_y in E.
  rewrite Rcross3_div_l in E by lra.
  apply Rdiv3_eq_zero in E; [exact E | lra].
Qed.

Lemma frame_cross_zero (a p i : vec3 R) :
  a <> p -> Rcross3 (Rsub3 a p) (Rabs3 (Rsub3 i a)) = Rzero3 ->
  frame_cross a p i = Rzero3.
Proof.
  intros Hap E.
  pose proof (Rnorm3_pos (Rsub3_nonzero Hap)) as Hn.
  unfold frame_cross, frame_y. rewrite Rcross3_div_l by lra.
  rewrite E. apply Rdiv3_zero.
Qed.

(** ** The rotation the code builds *)

Section Assembly.

Context {F : Type} `{NumpyScalar F}.

Lemma acpc_rotation_spec (ac pc ih : vec3 F) :
  acpc_rotation ac pc ih
  = M3 (spec_x ac pc ih) (spec_y ac pc) (spec_z ac pc ih).
Proof. reflexivity. Qed.

Lemma acpc_center_recognized (ac pc : vec3 F) (center_on : string) :
  recognized center_on ->
  acpc_center ac pc center_on = Ok (spec_origin ac pc center_on).
Proof.
  intros [E | [E | E]]; subst; reflexivity.
Qed.

Lemma acpc_center_unrecognized (ac pc : vec3 F) (center_on : string) :
  ~ recognized center_on ->
  acpc_center ac pc center_on
  = Raise (ValueError "center_on must be 'MC', 'AC', or 'PC'").
Proof.
  intros Hn. unfold acpc_center.
  destruct (String.eqb_spec center_on "MC") as [E | _];
    [exfalso; apply Hn; left; exact E |].
  destruct (String.eqb_spec center_on "AC") as [E | _];
    [exfalso; apply Hn; right; left; exact E |].
  destruct (String.eqb_spec center_on "PC") as [E | _];
    [exfalso; apply Hn; right; right; exact E |].
  reflexivity.
Qed.

Lemma recognized_dec (center_on : string) :
  {recognized center_on} + {~ recognized center_on}.
Proof.
  unfold recognized.
  destruct (string_dec center_on "MC") as [E | N1]; [left; tauto |].
  destruct (string_dec center_on "AC") as [E | N2]; [left; tauto |].
  destruct (string_dec center_on "PC") as [E | N3]; [left; tauto |].
  right; tauto.
Qed.

Lemma get_acpc_transformation_parts (ac pc ih : vec3 F) (c : string) :
  get_acpc_transformation ac pc ih c
  = match acpc_center ac pc c with
    | Raise e => Raise e
    | Ok center => Ok (assembled (acpc_rotation ac pc ih) center)
    end.
Proof. reflexivity. Qed.

Lemma get_acpc_transformation_recognized (ac pc ih : vec3 F) (c : string) :
  recognized c ->
  get_acpc_transformation ac pc ih c
  = Ok (assembled (acpc_rotation ac pc ih) (spec_origin ac pc c)).
Proof.
  intros Hc. rewrite get_acpc_transformation_parts.
  rewrite (acpc_center_recognized ac pc Hc). reflexivity.
Qed.

Lemma get_acpc_transformation_unrecognized (ac pc ih : vec3 F) (c : string) :
  ~ recognized c ->
  get_acpc_transformation ac pc ih c
  = Raise (ValueError "center_on must be 'MC', 'AC', or 'PC'").
Proof.
  intros Hn. rewrite get_acpc_transformation_parts.
  rewrite (acpc_center_unrecognized ac pc Hn). reflexivity.
Qed.

Lemma rotation_row_assembled (rot : mat3 F) (center : vec3 F) :
  rotation_row (assembled rot center) 0 = r0 rot
  /\ rotation_row (assembled rot center) 1 = r1 rot
  /\ rotation_row (assembled rot center) 2 = r2 rot.
Proof.
  destruct rot as [[x0 x1 x2] [y0 y1 y2] [z0 z1 z2]].
  repeat split; reflexivity.
Qed.

Lemma rotation_block_assembled (rot : mat3 F) (center : vec3 F) :
  rotation_block (assembled rot center) = rot.
Proof.
  destruct rot as [[x0 x1 x2] [y0 y1 y2] [z0 z1 z2]]. reflexivity.
Qed.

Lemma translation_column_assembled (rot : mat3 F) (center : vec3 F) :
  translation_column (assembled rot center) = vec_neg (np_dot_mv rot center).
Proof. reflexivity. Qed.

Lemma bottom_row_assembled (rot : mat3 F) (center : vec3 F) :
  bottom_row (assembled rot center) = [f_zero; f_zero; f_zero; f_one].
Proof. reflexivity. Qed.

End Assembly.

Lemma acpc_rotation_fin (a p i : vec3 R) :
  a <> p -> abs_offset_independent a p i ->
  acpc_rotation (fin3 a) (fin3 p) (fin3 i)
  = M3 (fin3 (frame_x a p i)) (fin3 (frame_y a p)) (fin3 (frame_z a p i)).
Proof.
  intros Hap Hind. rewrite acpc_rotation_spec.
  assert (Ey : spec_y (fin3 a) (fin3 p) = fin3 (frame_y a p)).
  { unfold spec_y. rewrite vec_sub_fin.
    apply normalize_fin, Rsub3_nonzero, Hap. }
  assert (Ex : spec_x (fin3 a) (fin3 p) (fin3 i) = fin3 (frame_x a p i)).
  { unfold spec_x. rewrite Ey, vec_sub_fin, np_abs_fin, np_cross_fin.
    apply normalize_fin, frame_cross_nonzero; assumption. }
  unfold spec_z. rewrite Ex, Ey, np_cross_fin. reflexivity.
Qed.

Lemma acpc_rotation_parallel (a p i : vec3 R) :
  a <> p -> Rcross3 (Rsub3 a p) (Rabs3 (Rsub3 i a)) = Rzero3 ->
  acpc_rotation (fin3 a) (fin3 p) (fin3 i)
  = M3 nan3 (fin3 (frame_y a p)) nan3.
Proof.
  intros Hap Hpar. rewrite acpc_rotation_spec.
  assert (Ey : spec_y (fin3 a) (fin3 p) = fin3 (frame_y a p)).
  { unfold spec_y. rewrite vec_sub_fin.
    apply normalize_fin, Rsub3_nonzero, Hap. }
  assert (Ex : spec_x (fin3 a) (fin3 p) (fin3 i) = nan3).
  { unfold spec_x. rewrite Ey, vec_sub_fin, np_abs_fin, np_cross_fin.
    fold (frame_cross a p i).
    rewrite (frame_cross_zero Hap Hpar). apply normalize_zero. }
  unfold spec_z. rewrite Ex, Ey. reflexivity.
Qed.

Lemma Rsub3_diag (a : vec3 R) : Rsub3 a a = Rzero3.
Proof.
  destruct a as [a0 a1 a2]; unfold Rsub3, Rzero3; simpl. f_equal; ring.
Qed.

Lemma acpc_rotation_coincident (a i : vec3 R) :
  acpc_rotation (fin3 a) (fin3 a) (fin3 i) = M3 nan3 nan3 nan3.
Proof.
  rewrite acpc_rotation_spec.
  assert (Ey : spec_y (fin3 a) (fin3 a) = nan3).
  { unfold spec_y. rewrite vec_sub_fin, Rsub3_diag. apply normalize_zero. }
  assert (Ex : spec_x (fin3 a) (fin3 a) (fin3 i) = nan3).
  { unfold spec_x. rewrite Ey. reflexivity. }
  unfold spec_z. rewrite Ex, Ey. reflexivity.
Qed.

(** ** Orthonormality over the reals *)

Lemma Rdot3_comm (a b : vec3 R) : Rdot3 a b = Rdot3 b a.
Proof. unfold Rdot3; ring. Qed.

Lemma Rdot3_div_l (v w : vec3 R) (s : R) :
  s <> 0 -> Rdot3 (Rdiv3 v s) w = Rdot3 v w / s.
Proof. intros Hs. unfold Rdot3, Rdiv3; simpl. field; exact Hs. Qed.

Lemma Rdot3_div_r (v w : vec3 R) (s : R) :
  s <> 0 -> Rdot3 v (Rdiv3 w s) = Rdot3 v w / s.
Proof. intros Hs. unfold Rdot3, Rdiv3; simpl. field; exact Hs. Qed.

Lemma Rcross3_dot_l (a b : vec3 R) : Rdot3 (Rcross3 a b) a = 0.
Proof. unfold Rdot3, Rcross3; simpl; ring. Qed.

Lemma Rcross3_dot_r (a b : vec3 R) : Rdot3 (Rcross3 a b) b = 0.
Proof. unfold Rdot3, Rcross3; simpl; ring. Qed.

Lemma Rcross3_lagrange (a b : vec3 R) :
  Rdot3 (Rcross3 a b) (Rcross3 a b)
  = Rdot3 a a * Rdot3 b b - Rdot3 a b * Rdot3 a b.
Proof. unfold Rdot3, Rcross3; simpl; ring. Qed.

Lemma Rdiv3_norm_unit (v : vec3 R) :
  v <> Rzero3 -> Rdot3 (Rdiv3 v (Rnorm3 v)) (Rdiv3 v (Rnorm3 v)) = 1.
Proof.
  intros Hv. pose proof (Rnorm3_pos Hv) as Hn.
  rewrite Rdot3_div_l, Rdot3_div_r by lra.
  rewrite <- Rnorm3_sqr. field; lra.
Qed.

Lemma Rnorm3_unit (u : vec3 R) : Rdot3 u u = 1 -> Rnorm3 u = 1.
Proof. intros E. unfold Rnorm3. rewrite E. apply sqrt_1. Qed.

Section Frame.

Variables a p i : vec3 R.
Hypothesis Hap : a <> p.
Hypothesis Hind : abs_offset_independent a p i.

Lemma frame_y_unit : Rdot3 (frame_y a p) (frame_y a p) = 1.
Proof. apply Rdiv3_norm_unit, Rsub3_nonzero, Hap. Qed.

Lemma frame_x_unit : Rdot3 (frame_x a p i) (frame_x a p i) = 1.
Proof. apply Rdiv3_norm_unit, frame_cross_nonzero; assumption. Qed.

Lemma frame_x_y : Rdot3 (frame_x a p i) (frame_y a p) = 0.
Proof.
  pose proof (Rnorm3_pos (frame_cross_nonzero Hap Hind)) as Hn.
  unfold frame_x. rewrite Rdot3_div_l by lra.
  unfold frame_cross at 1. rewrite Rcross3_dot_l. field; lra.
Qed.

Lemma frame_z_unit : Rdot3 (frame_z a p i) (frame_z a p i) = 1.
Proof.
  unfold frame_z.
  rewrite Rcross3_lagrange, frame_x_unit, frame_y_unit, frame_x_y.
  ring.
Qed.

Lemma frame_x_z : Rdot3 (frame_x a p i) (frame_z a p i) = 0.
Proof. unfold frame_z. rewrite Rdot3_comm. apply Rcross3_dot_l. Qed.

Lemma frame_y_z : Rdot3 (frame_y a p) (frame_z a p i) = 0.
Proof. unfold frame_z. rewrite Rdot3_comm. apply Rcross3_dot_r. Qed.

(** [ac - pc] is its norm times the Y axis. *)
Lemma Rdot3_offset (u : vec3 R) :
  Rdot3 u (Rsub3 a p) = Rnorm3 (Rsub3 a p) * Rdot3 u (frame_y a p).
Proof.
  pose proof (Rnorm3_pos (Rsub3_nonzero Hap)) as Hn.
  unfold frame_y. rewrite Rdot3_div_r by lra. field; lra.
Qed.

End Frame.

(** ** Finite origins and the transform applied to them *)

Lemma spec_origin_fin (a p : vec3 R) (center_on : string) :
  spec_origin (fin3 a) (fin3 p) center_on = fin3 (origin_of a p center_on).
Proof.
  unfold spec_origin, origin_of.
  destruct (String.eqb center_on "MC").
  - change (vec_add (fin3 a) (fin3 p)) with (fin3 (Radd3 a p)).
    apply (@vec_div_fin (Radd3 a p) 2). lra.
  - destruct (String.eqb center_on "AC"); reflexivity.
Qed.

Lemma apply_assembled_fin (x y z o : vec3 R) :
  apply_transform (assembled (M3 (fin3 x) (fin3 y) (fin3 z)) (fin3 o)) (fin3 o)
  = fin3 Rzero3.
Proof.
  destruct x, y, z, o. unfold apply_transform, fin3, Rzero3; simpl.
  f_equal; f_equal; ring.
Qed.

Lemma vec3R_eq_dec (a b : vec3 R) : {a = b} + {a <> b}.
Proof.
  destruct a as [a0 a1 a2], b as [b0 b1 b2].
  destruct (Req_dec_T a0 b0) as [E0 | N0];
    [| right; intros E; injection E; intros; contradiction].
  destruct (Req_dec_T a1 b1) as [E1 | N1];
    [| right; intros E; injection E; intros; contradiction].
  destruct (Req_dec_T a2 b2) as [E2 | N2];
    [| right; intros E; injection E; intros; contradiction].
  left; subst; reflexivity.
Qed.

Ltac eval_Rabs := unfold Rabs; repeat destruct Rcase_abs; try lra.

Lemma scenario_valid :
  scenario_ac <> scenario_pc
  /\ abs_offset_independent scenario_ac scenario_pc scenario_ih.
Proof.
  split.
  - intros E; injection E; intros; lra.
  - unfold abs_offset_independent, Rcross3, Rsub3, Rabs3, Rzero3; simpl.
    intros E; injection E as _ _ E2. revert E2. eval_Rabs.
Qed.

Lemma skew_parallel :
  skew_ac <> skew_pc
  /\ ~ collinear skew_ac skew_pc skew_ih
  /\ Rcross3 (Rsub3 skew_ac skew_pc) (Rabs3 (Rsub3 skew_ih skew_ac)) = Rzero3.
Proof.
  split; [| split].
  - intros E; injection E; intros; lra.
  - unfold collinear, Rcross3, Rsub3, Rzero3; simpl.
    intros E; injection E as _ _ E2. lra.
  - unfold Rcross3, Rsub3, Rabs3, Rzero3; simpl.
    f_equal; eval_Rabs.
Qed.

Lemma online_independent :
  online_ac <> online_pc
  /\ collinear online_ac online_pc online_ih
  /\ abs_offset_independent online_ac online_pc online_ih.
Proof.
  split; [| split].
  - intros E; injection E; intros; lra.
  - unfold collinear, Rcross3, Rsub3, Rzero3; simpl. f_equal; ring.
  - unfold abs_offset_independent, Rcross3, Rsub3, Rabs3, Rzero3; simpl.
    intros E; injection E as _ _ E2. revert E2. eval_Rabs.
Qed.

(** ** Coincident points on binary64 numbers *)

Lemma float_sub_diag (x : float) :
  PrimFloat.sub x x = 0%float \/ PrimFloat.sub x x = nan.
Proof.
  destruct (Prim2SF x) as [s | s | | s m e] eqn:E.
  - left. apply Prim2SF_inj. rewrite sub_spec, E. destruct s; reflexivity.
  - right. apply Prim2SF_inj. rewrite sub_spec, E. destruct s; reflexivity.
  - right. apply Prim2SF_inj. rewrite sub_spec, E. reflexivity.
  - left. apply Prim2SF_inj. rewrite sub_spec, E.
    unfold SF64sub, SFsub. cbv zeta. rewrite Z.sub_diag. reflexivity.
Qed.

Lemma float_nan_mul_l (x : float) : PrimFloat.mul nan x = nan.
Proof.
  apply Prim2SF_inj. rewrite mul_spec.
  change (Prim2SF nan) with S754_nan. reflexivity.
Qed.

(** A vector minus itself has components 0 or NaN, and normalising such a
    vector gives NaN throughout. *)
Lemma normalize_sub_diag_float64 (v : vec3 float) :
  normalize (vec_sub v v) = fnan3.
Proof.
  destruct v as [v0 v1 v2]. unfold vec_sub; cbn [c0 c1 c2 f_sub float64_scalar].
  destruct (float_sub_diag v0) as [E0 | E0]; rewrite E0;
    destruct (float_sub_diag v1) as [E1 | E1]; rewrite E1;
    destruct (float_sub_diag v2) as [E2 | E2]; rewrite E2;
    reflexivity.
Qed.

Lemma np_cross_nan_float64 (d : vec3 float) : np_cross fnan3 d = fnan3.
Proof.
  destruct d as [d0 d1 d2].
  unfold np_cross, fnan3; cbn [c0 c1 c2 f_sub f_mul float64_scalar].
  rewrite !float_nan_mul_l. reflexivity.
Qed.

Lemma acpc_rotation_coincident_float64 (ac ih : vec3 float) :
  acpc_rotation ac ac ih = M3 fnan3 fnan3 fnan3.
Proof.
  rewrite acpc_rotation_spec.
  assert (Ey : spec_y ac ac = fnan3) by apply normalize_sub_diag_float64.
  assert (Ex : spec_x ac ac ih = fnan3).
  { unfold spec_x. rewrite Ey, np_cross_nan_float64. reflexivity. }
  unfold spec_z. rewrite Ex, Ey. reflexivity.
Qed.

(** ** Degenerate inputs *)

(** C1 (as the code has it).  With a recognised mode the kernel never
    fails, whatever the three points and the scalar type: it has no
    degeneracy check, and inputs with AC equal to PC or with the reference
    point on the AC-PC line get a matrix like all others.  When AC equals
    PC the three rotation rows of that matrix are NaN throughout, in exact
    arithmetic and on binary64 numbers alike. *)
Theorem degenerate_input_returns_matrix (F : Type) (S : NumpyScalar F)
    (ac pc ih : vec3 F) (a i : vec3 R) (b j : vec3 float)
    (center_on : string) :
  recognized center_on ->
  (exists m, get_acpc_transformation ac pc ih center_on = Ok m)
  /\ (exists m,
        get_acpc_transformation (fin3 a) (fin3 a) (fin3 i) center_on = Ok m
        /\ rotation_row m 0 = nan3
        /\ rotation_row m 1 = nan3
        /\ rotation_row m 2 = nan3)
  /\ (exists m,
        get_acpc_transformation b b j center_on = Ok m
        /\ rotation_row m 0 = fnan3
        /\ rotation_row m 1 = fnan3
        /\ rotation_row m 2 = fnan3).
Proof.
  intros Hc. split; [| split].
  - rewrite (get_acpc_transformation_recognized ac pc ih Hc).
    eexists; reflexivity.
  - rewrite (get_acpc_transformation_recognized _ _ _ Hc).
    eexists; split; [reflexivity |].
    destruct (rotation_row_assembled
                (acpc_rotation (fin3 a) (fin3 a) (fin3 i))
                (spec_origin (fin3 a) (fin3 a) center_on)) as (E0 & E1 & E2).
    rewrite E0, E1, E2, acpc_rotation_coincident. repeat split.
  - rewrite (get_acpc_transformation_recognized _ _ _ Hc).
    eexists; split; [reflexivity |].
    destruct (rotation_row_assembled (acpc_rotation b b j)
                (spec_origin b b center_on)) as (E0 & E1 & E2).
    rewrite E0, E1, E2, acpc_rotation_coincident_float64. repeat split.
Qed.

Lemma degenerate_input_returns_matrix_witness :
  recognized "AC"
  /\ (exists m,
        get_acpc_transformation (fin3 online_ac) (fin3 online_pc)
          (fin3 online_ih) "AC" = Ok m)
  /\ (exists m,
        get_acpc_transformation (fin3 scenario_ac) (fin3 scenario_ac)
          (fin3 scenario_ih) "AC" = Ok m
        /\ rotation_row m 0 = nan3
        /\ rotation_row m 1 = nan3
        /\ rotation_row m 2 = nan3)
  /\ (exists m,
        get_acpc_transformation (V3 1 3 7)%float (V3 1 3 7)%float
          (V3 4 12 28)%float "AC" = Ok m
        /\ rotation_row m 0 = fnan3
        /\ rotation_row m 1 = fnan3
        /\ rotation_row m 2 = fnan3).
Proof.
  split; [right; left; reflexivity |].
  apply (@degenerate_input_returns_matrix npf exact_scalar).
  right; left; reflexivity.
Defined.

(** C1 (as stated) fails: with AC equal to PC the kernel returns a matrix,
    sixteen entries of which twelve are NaN, and with the reference point
    (2,-2,0) on the line through AC = (1,-1,0) and PC = (0,0,0) it returns
    a matrix of finite entries. *)
Lemma degenerate_input_counterexample :
  get_acpc_transformation (fin3 Rzero3) (fin3 Rzero3) (fin3 scenario_ih) "MC"
  = Ok [[NaN; NaN; NaN; NaN]; [NaN; NaN; NaN; NaN]; [NaN; NaN; NaN; NaN];
        [Fin 0; Fin 0; Fin 0; Fin 1]]
  /\ collinear online_ac online_pc online_ih
  /\ exists m,
       get_acpc_transformation (fin3 online_ac) (fin3 online_pc)
         (fin3 online_ih) "AC" = Ok m
       /\ rotation_block m
          = M3 (fin3 (frame_x online_ac online_pc online_ih))
               (fin3 (frame_y online_ac online_pc))
               (fin3 (frame_z online_ac online_pc online_ih)).
Proof.
  destruct online_independent as (Hne & Hcol & Hind).
  split; [| split].
  - rewrite get_acpc_transformation_recognized by (left; reflexivity).
    rewrite acpc_rotation_coincident. reflexivity.
  - exact Hcol.
  - rewrite get_acpc_transformation_recognized by (right; left; reflexivity).
    eexists; split; [reflexivity |].
    rewrite rotation_block_assembled. apply (acpc_rotation_fin Hne Hind).
Qed.

(** ** The centring mode *)

(** C2.  The kernel raises its ValueError exactly when [center_on] is none
    of "MC", "AC", "PC", and returns a matrix exactly when it is one of
    them, whatever the three points. *)
Theorem center_on_validation (F : Type) (S : NumpyScalar F)
    (ac pc ih : vec3 F) (center_on : string) :
  (get_acpc_transformation ac pc ih center_on
   = Raise (ValueError "center_on must be 'MC', 'AC', or 'PC'")
   <-> ~ recognized center_on)
  /\ ((exists m, get_acpc_transformation ac pc ih center_on = Ok m)
      <-> recognized center_on).
Proof.
  destruct (recognized_dec center_on) as [Hc | Hn].
  - pose proof (get_acpc_transformation_recognized ac pc ih Hc) as E.
    split; split.
    + rewrite E; discriminate.
    + intros Hn; contradiction.
    + intros _; exact Hc.
    + intros _; eexists; exact E.
  - pose proof (get_acpc_transformation_unrecognized ac pc ih Hn) as E.
    split; split.
    + intros _; exact Hn.
    + intros _; exact E.
    + intros [m Em]; rewrite E in Em; discriminate.
    + intros Hc; contradiction.
Qed.

(** ** The rows of the rotation *)

(** C3.  For a recognised mode the kernel returns a matrix whose rotation
    rows are, in this order, [x = normalize (cross y |ih - ac|)],
    [y = normalize (ac - pc)] and [z = cross x y], and whose last row is
    (0, 0, 0, 1).  This holds for every scalar type and all points. *)
Theorem rotation_rows_as_specified (F : Type) (S : NumpyScalar F)
    (ac pc ih : vec3 F) (center_on : string) :
  recognized center_on ->
  exists m,
    get_acpc_transformation ac pc ih center_on = Ok m
    /\ rotation_row m 0 = spec_x ac pc ih
    /\ rotation_row m 1 = spec_y ac pc
    /\ rotation_row m 2 = spec_z ac pc ih
    /\ bottom_row m = [f_zero; f_zero; f_zero; f_one].
Proof.
  intros Hc.
  rewrite (get_acpc_transformation_recognized ac pc ih Hc).
  eexists; split; [reflexivity |].
  destruct (rotation_row_assembled (acpc_rotation ac pc ih)
              (spec_origin ac pc center_on)) as (E0 & E1 & E2).
  rewrite E0, E1, E2, acpc_rotation_spec, bottom_row_assembled.
  repeat split.
Qed.

Lemma rotation_rows_as_specified_witness :
  recognized "PC"
  /\ exists m,
       get_acpc_transformation (fin3 scenario_ac) (fin3 scenario_pc)
         (fin3 scenario_ih) "PC" = Ok m
       /\ rotation_row m 0
          = spec_x (fin3 scenario_ac) (fin3 scenario_pc) (fin3 scenario_ih)
       /\ rotation_row m 1 = spec_y (fin3 scenario_ac) (fin3 scenario_pc)
       /\ rotation_row m 2
          = spec_z (fin3 scenario_ac) (fin3 scenario_pc) (fin3 scenario_ih)
       /\ bottom_row m = [Fin 0; Fin 0; Fin 0; Fin 1].
Proof.
  split; [right; right; reflexivity |].
  apply (@rotation_rows_as_specified npf exact_scalar).
  right; right; reflexivity.
Defined.

(** ** Centring *)

(** C4 (as the code has it).  For AC distinct from PC, an absolute offset
    [|ih - ac|] not parallel to [ac - pc] and a recognised mode, the
    returned transform sends the selected origin to (0, 0, 0), and its
    translation column is minus the rotation block times that origin. *)
Theorem centering_correct (a p i : vec3 R) (center_on : string) :
  a <> p -> abs_offset_independent a p i -> recognized center_on ->
  exists m,
    get_acpc_transformation (fin3 a) (fin3 p) (fin3 i) center_on = Ok m
    /\ apply_transform m (spec_origin (fin3 a) (fin3 p) center_on)
       = fin3 Rzero3
    /\ translation_column m
       = vec_neg (np_dot_mv (rotation_block m)
                    (spec_origin (fin3 a) (fin3 p) center_on)).
Proof.
  intros Hap Hind Hc.
  rewrite (get_acpc_transformation_recognized _ _ _ Hc).
  eexists; split; [reflexivity |].
  rewrite rotation_block_assembled, translation_column_assembled.
  split; [| reflexivity].
  rewrite (acpc_rotation_fin Hap Hind), spec_origin_fin.
  apply apply_assembled_fin.
Qed.

Lemma centering_correct_witness :
  scenario_ac <> scenario_pc
  /\ abs_offset_independent scenario_ac scenario_pc scenario_ih
  /\ recognized "AC"
  /\ exists m,
       get_acpc_transformation (fin3 scenario_ac) (fin3 scenario_pc)
         (fin3 scenario_ih) "AC" = Ok m
       /\ apply_transform m
            (spec_origin (fin3 scenario_ac) (fin3 scenario_pc) "AC")
          = fin3 Rzero3
       /\ translation_column m
          = vec_neg
              (np_dot_mv (rotation_block m)
                 (spec_origin (fin3 scenario_ac) (fin3 scenario_pc) "AC")).
Proof.
  split; [apply scenario_valid |].
  split; [apply scenario_valid |].
  split; [right; left; reflexivity |].
  apply centering_correct;
    [apply scenario_valid | apply scenario_valid | right; left; reflexivity].
Defined.

(** C4 (as stated) fails: AC = (1,1,0), PC = (0,0,0), IH = (2,0,0) are not
    collinear, yet the transform centred on AC sends AC to (NaN, 0, NaN). *)
Lemma centering_counterexample :
  skew_ac <> skew_pc
  /\ ~ collinear skew_ac skew_pc skew_ih
  /\ exists m,
       get_acpc_transformation (fin3 skew_ac) (fin3 skew_pc) (fin3 skew_ih)
         "AC" = Ok m
       /\ apply_transform m (fin3 skew_ac) = V3 NaN (Fin 0) NaN.
Proof.
  destruct skew_parallel as (Hne & Hnc & Hpar).
  split; [exact Hne |]. split; [exact Hnc |].
  rewrite get_acpc_transformation_recognized by (right; left; reflexivity).
  eexists; split; [reflexivity |].
  rewrite (acpc_rotation_parallel Hne Hpar).
  change (spec_origin (fin3 skew_ac) (fin3 skew_pc) "AC") with (fin3 skew_ac).
  destruct (frame_y skew_ac skew_pc) as [y0 y1 y2].
  unfold apply_transform, skew_ac; simpl.
  f_equal. f_equal. ring.
Qed.

(** ** Orthonormality *)

(** C5 (as the code has it).  For AC distinct from PC, an absolute offset
    [|ih - ac|] not parallel to [ac - pc] and a recognised mode, each row
    of the rotation block has norm 1 and two different rows have dot
    product 0, in exact arithmetic. *)
Theorem rotation_orthonormal (a p i : vec3 R) (center_on : string) :
  a <> p -> abs_offset_independent a p i -> recognized center_on ->
  exists m,
    get_acpc_transformation (fin3 a) (fin3 p) (fin3 i) center_on = Ok m
    /\ np_linalg_norm (rotation_row m 0) = Fin 1
    /\ np_linalg_norm (rotation_row m 1) = Fin 1
    /\ np_linalg_norm (rotation_row m 2) = Fin 1
    /\ np_dot (rotation_row m 0) (rotation_row m 1) = Fin 0
    /\ np_dot (rotation_row m 0) (rotation_row m 2) = Fin 0
    /\ np_dot (rotation_row m 1) (rotation_row m 2) = Fin 0.
Proof.
  intros Hap Hind Hc.
  rewrite (get_acpc_transformation_recognized _ _ _ Hc).
  eexists; split; [reflexivity |].
  destruct (rotation_row_assembled
              (acpc_rotation (fin3 a) (fin3 p) (fin3 i))
              (spec_origin (fin3 a) (fin3 p) center_on)) as (E0 & E1 & E2).
  rewrite E0, E1, E2, (acpc_rotation_fin Hap Hind).
  cbn [r0 r1 r2].
  rewrite !np_linalg_norm_fin, !np_dot_fin.
  rewrite (Rnorm3_unit (frame_x_unit Hap Hind)).
  rewrite (Rnorm3_unit (frame_y_unit Hap)).
  rewrite (Rnorm3_unit (frame_z_unit Hap Hind)).
  rewrite (frame_x_y Hap Hind), frame_x_z, frame_y_z.
  repeat split.
Qed.

Lemma rotation_orthonormal_witness :
  scenario_ac <> scenario_pc
  /\ abs_offset_independent scenario_ac scenario_pc scenario_ih
  /\ recognized "MC"
  /\ exists m,
       get_acpc_transformation (fin3 scenario_ac) (fin3 scenario_pc)
         (fin3 scenario_ih) "MC" = Ok m
       /\ np_linalg_norm (rotation_row m 0) = Fin 1
       /\ np_linalg_norm (rotation_row m 1) = Fin 1
       /\ np_linalg_norm (rotation_row m 2) = Fin 1
       /\ np_dot (rotation_row m 0) (rotation_row m 1) = Fin 0
       /\ np_dot (rotation_row m 0) (rotation_row m 2) = Fin 0
       /\ np_dot (rotation_row m 1) (rotation_row m 2) = Fin 0.
Proof.
  split; [apply scenario_valid |].
  split; [apply scenario_valid |].
  split; [left; reflexivity |].
  apply rotation_orthonormal;
    [apply scenario_valid | apply scenario_valid | left; reflexivity].
Defined.

(** C5 (as stated) fails: AC = (1,1,0), PC = (0,0,0), IH = (2,0,0) are not
    collinear, yet the X row of the rotation is (NaN, NaN, NaN) and its
    norm is NaN. *)
Lemma rotation_orthonormal_counterexample :
  skew_ac <> skew_pc
  /\ ~ collinear skew_ac skew_pc skew_ih
  /\ exists m,
       get_acpc_transformation (fin3 skew_ac) (fin3 skew_pc) (fin3 skew_ih)
         "MC" = Ok m
       /\ rotation_row m 0 = nan3
       /\ np_linalg_norm (rotation_row m 0) = NaN.
Proof.
  destruct skew_parallel as (Hne & Hnc & Hpar).
  split; [exact Hne |]. split; [exact Hnc |].
  rewrite get_acpc_transformation_recognized by (left; reflexivity).
  eexists; split; [reflexivity |].
  destruct (rotation_row_assembled
              (acpc_rotation (fin3 skew_ac) (fin3 skew_pc) (fin3 skew_ih))
              (spec_origin (fin3 skew_ac) (fin3 skew_pc) "MC")) as (E0 & _).
  rewrite E0, (acpc_rotation_parallel Hne Hpar). split; reflexivity.
Qed.

(** ** Alignment of the AC-PC axis *)

(** C6 (as the code has it).  For AC distinct from PC, an absolute offset
    [|ih - ac|] not parallel to [ac - pc] and a recognised mode, the
    rotation block times [ac - pc] is (0, norm (ac - pc), 0). *)
Theorem acpc_axis_alignment (a p i : vec3 R) (center_on : string) :
  a <> p -> abs_offset_independent a p i -> recognized center_on ->
  exists m,
    get_acpc_transformation (fin3 a) (fin3 p) (fin3 i) center_on = Ok m
    /\ np_dot_mv (rotation_block m) (vec_sub (fin3 a) (fin3 p))
       = V3 (Fin 0) (np_linalg_norm (vec_sub (fin3 a) (fin3 p))) (Fin 0).
Proof.
  intros Hap Hind Hc.
  rewrite (get_acpc_transformation_recognized _ _ _ Hc).
  eexists; split; [reflexivity |].
  rewrite rotation_block_assembled, (acpc_rotation_fin Hap Hind).
  rewrite vec_sub_fin, np_linalg_norm_fin.
  unfold np_dot_mv; cbn [r0 r1 r2]. rewrite !np_dot_fin.
  rewrite !(Rdot3_offset Hap).
  rewrite (frame_x_y Hap Hind), (frame_y_unit Hap).
  rewrite (Rdot3_comm (frame_z a p i)), frame_y_z.
  f_equal; f_equal; ring.
Qed.

Lemma acpc_axis_alignment_witness :
  scenario_ac <> scenario_pc
  /\ abs_offset_independent scenario_ac scenario_pc scenario_ih
  /\ recognized "PC"
  /\ exists m,
       get_acpc_transformation (fin3 scenario_ac) (fin3 scenario_pc)
         (fin3 scenario_ih) "PC" = Ok m
       /\ np_dot_mv (rotation_block m)
            (vec_sub (fin3 scenario_ac) (fin3 scenario_pc))
          = V3 (Fin 0)
               (np_linalg_norm (vec_sub (fin3 scenario_ac) (fin3 scenario_pc)))
               (Fin 0).
Proof.
  split; [apply scenario_valid |].
  split; [apply scenario_valid |].
  split; [right; right; reflexivity |].
  apply acpc_axis_alignment;
    [apply scenario_valid | apply scenario_valid | right; right; reflexivity].
Defined.

(** C6 (as stated) fails: AC = (1,1,0), PC = (0,0,0), IH = (2,0,0) are not
    collinear, yet the first and third components of the rotation block
    times [ac - pc] are NaN. *)
Lemma acpc_axis_alignment_counterexample :
  skew_ac <> skew_pc
  /\ ~ collinear skew_ac skew_pc skew_ih
  /\ exists m,
       get_acpc_transformation (fin3 skew_ac) (fin3 skew_pc) (fin3 skew_ih)
         "PC" = Ok m
       /\ c0 (np_dot_mv (rotation_block m)
                (vec_sub (fin3 skew_ac) (fin3 skew_pc))) = NaN
       /\ c2 (np_dot_mv (rotation_block m)
                (vec_sub (fin3 skew_ac) (fin3 skew_pc))) = NaN.
Proof.
  destruct skew_parallel as (Hne & Hnc & Hpar).
  split; [exact Hne |]. split; [exact Hnc |].
  rewrite get_acpc_transformation_recognized by (right; right; reflexivity).
  eexists; split; [reflexivity |].
  rewrite rotation_block_assembled, (acpc_rotation_parallel Hne Hpar).
  split; reflexivity.
Qed.

(** ** Classification of the end points *)

Lemma npf_gtb_irrefl (x : npf) : npf_gtb x x = false.
Proof.
  destruct x as [r | [|] |]; simpl; try reflexivity.
  destruct (Rgt_dec r r) as [Hgt | _]; [exfalso; lra | reflexivity].
Qed.

Lemma get_acpc_points_start (s e : vec3 R) :
  c1 s > c1 e -> get_acpc_points (line_of s e) = (fin3 s, fin3 e).
Proof.
  intros Hgt. unfold get_acpc_points, line_of; simpl.
  destruct (Rgt_dec (c1 s) (c1 e)); [reflexivity | contradiction].
Qed.

Lemma get_acpc_points_end (s e : vec3 R) :
  ~ c1 s > c1 e -> get_acpc_points (line_of s e) = (fin3 e, fin3 s).
Proof.
  intros Hng. unfold get_acpc_points, line_of; simpl.
  destruct (Rgt_dec (c1 s) (c1 e)); [contradiction | reflexivity].
Qed.

(** C7.  When the two end points of the line differ in Y, classifying them
    and building the transform gives the same result for the line and for
    the line with start and end exchanged, for every reference point and
    mode. *)
Theorem endpoint_order_invariance (s e : vec3 R) (ih : vec3 npf)
    (center_on : string) :
  c1 s <> c1 e ->
  process_transform (line_of s e) ih center_on
  = process_transform (line_of e s) ih center_on.
Proof.
  intros Hne. unfold process_transform.
  destruct (Rgt_dec (c1 s) (c1 e)) as [Hgt | Hng].
  - rewrite (get_acpc_points_start s e Hgt).
    rewrite (get_acpc_points_end e s) by lra. reflexivity.
  - rewrite (get_acpc_points_end s e Hng).
    rewrite (get_acpc_points_start e s) by lra. reflexivity.
Qed.

Lemma endpoint_order_invariance_witness :
  c1 scenario_ac <> c1 scenario_pc
  /\ process_transform (line_of scenario_ac scenario_pc) (fin3 scenario_ih) "MC"
     = process_transform (line_of scenario_pc scenario_ac) (fin3 scenario_ih)
         "MC".
Proof.
  split; [simpl; lra |].
  apply endpoint_order_invariance; simpl; lra.
Defined.

(** C8.  For two finite end points [get_acpc_points] returns a pair; when
    the start has the larger Y the pair is (start, end), and when the end
    has the larger Y it is (end, start): AC is the end point of strictly
    larger Y and PC the other one. *)
Theorem get_acpc_points_anterior_first (s e : vec3 R) :
  (exists ac pc, get_acpc_points (line_of s e) = (ac, pc))
  /\ (c1 s > c1 e -> get_acpc_points (line_of s e) = (fin3 s, fin3 e))
  /\ (c1 e > c1 s -> get_acpc_points (line_of s e) = (fin3 e, fin3 s)).
Proof.
  split; [| split].
  - destruct (get_acpc_points (line_of s e)) as [ac pc].
    exists ac, pc; reflexivity.
  - apply get_acpc_points_start.
  - intros Hgt. apply get_acpc_points_end. lra.
Qed.

Lemma get_acpc_points_anterior_first_witness :
  c1 scenario_ac > c1 scenario_pc
  /\ get_acpc_points (line_of scenario_pc scenario_ac)
     = (fin3 scenario_ac, fin3 scenario_pc).
Proof.
  split; [simpl; lra |].
  apply (get_acpc_points_anterior_first scenario_pc scenario_ac); simpl; lra.
Defined.

(** C10.  When the two end points have the same Y, [get_acpc_points]
    returns the end position as AC and the start position as PC; this holds
    for every value of Y, NaN and the infinities included. *)
Theorem get_acpc_points_tie (acpcLine : MarkupsLine npf) :
  c1 (GetLineStartPosition acpcLine) = c1 (GetLineEndPosition acpcLine) ->
  get_acpc_points acpcLine
  = (GetLineEndPosition acpcLine, GetLineStartPosition acpcLine).
Proof.
  intros E. unfold get_acpc_points. cbn [f_gtb exact_scalar].
  rewrite E, npf_gtb_irrefl. reflexivity.
Qed.

Lemma get_acpc_points_tie_witness :
  c1 (GetLineStartPosition (line_of (V3 1 5 0) (V3 (-1) 5 2)))
  = c1 (GetLineEndPosition (line_of (V3 1 5 0) (V3 (-1) 5 2)))
  /\ get_acpc_points (line_of (V3 1 5 0) (V3 (-1) 5 2))
     = (fin3 (V3 (-1) 5 2), fin3 (V3 1 5 0)).
Proof.
  split; [reflexivity |].
  apply (get_acpc_points_tie (line_of (V3 1 5 0) (V3 (-1) 5 2))). reflexivity.
Defined.

(** ** The scenario of the specification *)

Lemma scenario_rotation :
  acpc_rotation (fin3 scenario_ac) (fin3 scenario_pc) (fin3 scenario_ih)
  = M3 (fin3 (V3 0 0 (-1))) (fin3 (V3 0 1 0)) (fin3 (V3 1 0 0)).
Proof.
  destruct scenario_valid as [Hne Hind].
  rewrite (acpc_rotation_fin Hne Hind).
  assert (Ey : frame_y scenario_ac scenario_pc = V3 0 1 0).
  { unfold frame_y, Rnorm3, Rdot3, Rsub3, Rdiv3, scenario_ac, scenario_pc.
    simpl.
    replace ((0 - 0) * (0 - 0) + (10 - -10) * (10 - -10) + (0 - 0) * (0 - 0))
      with (20 * 20) by ring.
    rewrite sqrt_square by lra. f_equal; field. }
  assert (Ec : frame_cross scenario_ac scenario_pc scenario_ih = V3 0 0 (-10)).
  { unfold frame_cross. rewrite Ey.
    unfold Rcross3, Rabs3, Rsub3, scenario_ac, scenario_ih; simpl.
    f_equal; eval_Rabs. }
  assert (Ex : frame_x scenario_ac scenario_pc scenario_ih = V3 0 0 (-1)).
  { unfold frame_x. rewrite Ec. unfold Rnorm3, Rdot3, Rdiv3; simpl.
    replace (0 * 0 + 0 * 0 + -10 * -10) with (10 * 10) by ring.
    rewrite sqrt_square by lra. f_equal; field. }
  unfold frame_z. rewrite Ex, Ey.
  unfold Rcross3; simpl. f_equal. f_equal. f_equal; ring.
Qed.

Lemma scenario_value :
  get_acpc_transformation (fin3 scenario_ac) (fin3 scenario_pc)
    (fin3 scenario_ih) "MC"
  = Ok [[Fin 0; Fin 0; Fin (-1); Fin 0];
        [Fin 0; Fin 1; Fin 0; Fin 0];
        [Fin 1; Fin 0; Fin 0; Fin 0];
        [Fin 0; Fin 0; Fin 0; Fin 1]].
Proof.
  rewrite get_acpc_transformation_recognized by (left; reflexivity).
  rewrite scenario_rotation, spec_origin_fin.
  unfold assembled, assign_column, assign_block, np_eye, set_index3,
    set_prefix3, vec_neg, np_dot_mv, np_dot, fin3, origin_of, Radd3, Rdiv3,
    scenario_ac, scenario_pc; simpl.
  repeat f_equal; lra.
Qed.

(** C9.  For AC = (0,10,0), PC = (0,-10,0), IH = (10,0,0) and mode "MC" the
    kernel returns a matrix that maps (0,0,0) to itself, whose Y row is
    (0,1,0) and whose translation column is (0,0,0). *)
Theorem scenario_matrix :
  exists m,
    get_acpc_transformation (fin3 scenario_ac) (fin3 scenario_pc)
      (fin3 scenario_ih) "MC" = Ok m
    /\ apply_transform m (fin3 Rzero3) = fin3 Rzero3
    /\ rotation_row m 1 = fin3 (V3 0 1 0)
    /\ translation_column m = fin3 Rzero3.
Proof.
  eexists; split; [apply scenario_value |].
  split; [| split; reflexivity].
  unfold apply_transform, fin3, Rzero3; simpl.
  repeat f_equal; lra.
Qed.

(** The same scenario on binary64 numbers: the translation entries are
    negative zeros, which compare equal to zero. *)
Example scenario_matrix_float64 :
  get_acpc_transformation (V3 0 10 0)%float (V3 0 (-10) 0)%float
    (V3 10 0 0)%float "MC"
  = Ok [[0; 0; -1; -0]; [0; 1; 0; -0]; [1; -0; 0; -0]; [0; 0; 0; 1]]%float.
Proof. vm_compute. reflexivity. Qed.

(** Coincident points on binary64 numbers: no exception, twelve NaN. *)
Example coincident_float64 :
  get_acpc_transformation (V3 0 0 0)%float (V3 0 0 0)%float
    (V3 1 0 0)%float "MC"
  = Ok [[nan; nan; nan; nan]; [nan; nan; nan; nan]; [nan; nan; nan; nan];
        [0; 0; 0; 1]]%float.
Proof. vm_compute. reflexivity. Qed.

(** The point off the line with a parallel absolute offset, on binary64
    numbers: the X and Z rows are NaN there as well. *)
Example skew_float64 :
  get_acpc_transformation (V3 1 1 0)%float (V3 0 0 0)%float (V3 2 0 0)%float
    "AC"
  = Ok [[nan; nan; nan; nan];
        [0x1.6a09e667f3bccp-1; 0x1.6a09e667f3bccp-1; 0; -0x1.6a09e667f3bccp+0];
        [nan; nan; nan; nan];
        [0; 0; 0; 1]]%float.
Proof. vm_compute. reflexivity. Qed.

(** ** Further properties of the kernel *)

Lemma apply_assembled_image (x y z o q : vec3 R) :
  apply_transform (assembled (M3 (fin3 x) (fin3 y) (fin3 z)) (fin3 o)) (fin3 q)
  = fin3 (Rimage x y z o q).
Proof.
  destruct x, y, z, o, q.
  unfold apply_transform, fin3, Rimage, Rdot3, Rsub3; simpl.
  f_equal; f_equal; ring.
Qed.

(** The transform of a valid input, applied to a finite point. *)
Lemma apply_transform_fin (a p i q : vec3 R) (center_on : string) :
  a <> p -> abs_offset_independent a p i -> recognized center_on ->
  apply_transform
    (assembled (acpc_rotation (fin3 a) (fin3 p) (fin3 i))
       (spec_origin (fin3 a) (fin3 p) center_on)) (fin3 q)
  = fin3 (Rimage (frame_x a p i) (frame_y a p) (frame_z a p i)
            (origin_of a p center_on) q).
Proof.
  intros Hap Hind Hc.
  rewrite (acpc_rotation_fin Hap Hind), spec_origin_fin.
  apply apply_assembled_image.
Qed.

Lemma Rcross3_gram (x y w : vec3 R) :
  Rdot3 (Rcross3 x y) w * Rdot3 (Rcross3 x y) w
  = Rdot3 w w * Rdot3 x x * Rdot3 y y
    + 2 * Rdot3 x w * Rdot3 x y * Rdot3 y w
    - Rdot3 w w * (Rdot3 x y * Rdot3 x y)
    - Rdot3 x x * (Rdot3 y w * Rdot3 y w)
    - Rdot3 y y * (Rdot3 x w * Rdot3 x w).
Proof.
  destruct x, y, w. unfold Rdot3, Rcross3; simpl. ring.
Qed.

(** The squared coordinates of a vector in an orthonormal frame add up to
    its squared length. *)
Lemma Rdot3_frame (x y w : vec3 R) :
  Rdot3 x x = 1 -> Rdot3 y y = 1 -> Rdot3 x y = 0 ->
  Rdot3 x w * Rdot3 x w + Rdot3 y w * Rdot3 y w
  + Rdot3 (Rcross3 x y) w * Rdot3 (Rcross3 x y) w
  = Rdot3 w w.
Proof.
  intros Hx Hy Hxy. rewrite Rcross3_gram, Hx, Hy, Hxy. ring.
Qed.

Lemma det3_fin (x y z : vec3 R) :
  det3 (M3 (fin3 x) (fin3 y) (fin3 z)) = Fin (Rdot3 (Rcross3 x y) z).
Proof.
  destruct x, y, z. unfold det3, Rdot3, Rcross3; simpl. f_equal; ring.
Qed.

(** X1.  For AC distinct from PC, an absolute offset [|ih - ac|] not
    parallel to [ac - pc] and a recognised mode, the rotation block has
    determinant 1: the frame is right-handed, never a reflection. *)
Theorem rotation_determinant_one (a p i : vec3 R) (center_on : string) :
  a <> p -> abs_offset_independent a p i -> recognized center_on ->
  exists m,
    get_acpc_transformation (fin3 a) (fin3 p) (fin3 i) center_on = Ok m
    /\ det3 (rotation_block m) = Fin 1.
Proof.
  intros Hap Hind Hc.
  rewrite (get_acpc_transformation_recognized _ _ _ Hc).
  eexists; split; [reflexivity |].
  rewrite rotation_block_assembled, (acpc_rotation_fin Hap Hind), det3_fin.
  f_equal. apply (frame_z_unit Hap Hind).
Qed.

Lemma rotation_determinant_one_witness :
  scenario_ac <> scenario_pc
  /\ abs_offset_independent scenario_ac scenario_pc scenario_ih
  /\ recognized "MC"
  /\ exists m,
       get_acpc_transformation (fin3 scenario_ac) (fin3 scenario_pc)
         (fin3 scenario_ih) "MC" = Ok m
       /\ det3 (rotation_block m) = Fin 1.
Proof.
  split; [apply scenario_valid |].
  split; [apply scenario_valid |].
  split; [left; reflexivity |].
  apply rotation_determinant_one;
    [apply scenario_valid | apply scenario_valid | left; reflexivity].
Defined.

Lemma Rimage_sub (x y z o u v : vec3 R) :
  Rsub3 (Rimage x y z o u) (Rimage x y z o v)
  = V3 (Rdot3 x (Rsub3 u v)) (Rdot3 y (Rsub3 u v)) (Rdot3 z (Rsub3 u v)).
Proof.
  destruct x, y, z, o, u, v. unfold Rimage, Rsub3, Rdot3; simpl.
  f_equal; ring.
Qed.

(** X2.  For a valid input the returned transform is rigid: the distance
    between the images of two finite points is the distance between the
    points. *)
Theorem transform_preserves_distances (a p i u v : vec3 R)
    (center_on : string) :
  a <> p -> abs_offset_independent a p i -> recognized center_on ->
  exists m,
    get_acpc_transformation (fin3 a) (fin3 p) (fin3 i) center_on = Ok m
    /\ np_linalg_norm
         (vec_sub (apply_transform m (fin3 u)) (apply_transform m (fin3 v)))
       = np_linalg_norm (vec_sub (fin3 u) (fin3 v)).
Proof.
  intros Hap Hind Hc.
  rewrite (get_acpc_transformation_recognized _ _ _ Hc).
  eexists; split; [reflexivity |].
  rewrite !(apply_transform_fin _ Hap Hind Hc).
  rewrite !vec_sub_fin, !np_linalg_norm_fin, Rimage_sub.
  f_equal. unfold Rnorm3. f_equal.
  rewrite <- (Rdot3_frame (Rsub3 u v) (frame_x_unit Hap Hind)
                (frame_y_unit Hap) (frame_x_y Hap Hind)).
  unfold Rdot3 at 1; simpl. fold (frame_z a p i). ring.
Qed.

Lemma transform_preserves_distances_witness :
  scenario_ac <> scenario_pc
  /\ abs_offset_independent scenario_ac scenario_pc scenario_ih
  /\ recognized "AC"
  /\ exists m,
       get_acpc_transformation (fin3 scenario_ac) (fin3 scenario_pc)
         (fin3 scenario_ih) "AC" = Ok m
       /\ np_linalg_norm
            (vec_sub (apply_transform m (fin3 skew_ac))
               (apply_transform m (fin3 skew_ih)))
          = np_linalg_norm (vec_sub (fin3 skew_ac) (fin3 skew_ih)).
Proof.
  split; [apply scenario_valid |].
  split; [apply scenario_valid |].
  split; [right; left; reflexivity |].
  apply transform_preserves_distances;
    [apply scenario_valid | apply scenario_valid | right; left; reflexivity].
Defined.

Lemma Rdot3_scale_r (s : R) (u v : vec3 R) :
  Rdot3 u (Rscale3 s v) = s * Rdot3 u v.
Proof. destruct u, v. unfold Rdot3, Rscale3; simpl. ring. Qed.

(** The offset of AC and of PC from the origin of each mode, as a multiple
    of [ac - pc]. *)
Lemma origin_offsets (a p : vec3 R) (center_on : string) :
  recognized center_on ->
  exists ka kp : R,
    Rsub3 a (origin_of a p center_on) = Rscale3 ka (Rsub3 a p)
    /\ Rsub3 p (origin_of a p center_on) = Rscale3 kp (Rsub3 a p)
    /\ ka - kp = 1
    /\ (center_on = "MC"%string -> ka = 1 / 2)
    /\ (center_on = "AC"%string -> ka = 0)
    /\ (center_on = "PC"%string -> ka = 1).
Proof.
  destruct a as [a0 a1 a2], p as [p0 p1 p2].
  intros [E | [E | E]]; subst center_on.
  - exists (1 / 2), (- (1 / 2)).
    unfold origin_of, Rsub3, Rscale3, Rdiv3, Radd3; simpl.
    repeat split; try (f_equal; field); try lra; discriminate.
  - exists 0, (- 1).
    unfold origin_of, Rsub3, Rscale3; simpl.
    repeat split; try (f_equal; ring); try lra; discriminate.
  - exists 1, 0.
    unfold origin_of, Rsub3, Rscale3; simpl.
    repeat split; try (f_equal; ring); try lra; discriminate.
Qed.

(** X3.  In exact arithmetic, for a valid input the transform puts AC and
    PC on the Y axis of the new frame, AC ahead of PC by the distance
    between them; centred on "MC" they sit at plus and minus half that
    distance, centred on "AC" or "PC" the chosen landmark sits at the
    origin. *)
Theorem landmarks_on_y_axis (a p i : vec3 R) (center_on : string) :
  a <> p -> abs_offset_independent a p i -> recognized center_on ->
  exists m ya yp,
    get_acpc_transformation (fin3 a) (fin3 p) (fin3 i) center_on = Ok m
    /\ apply_transform m (fin3 a) = fin3 (V3 0 ya 0)
    /\ apply_transform m (fin3 p) = fin3 (V3 0 yp 0)
    /\ ya - yp = Rnorm3 (Rsub3 a p)
    /\ (center_on = "MC"%string -> ya = Rnorm3 (Rsub3 a p) / 2)
    /\ (center_on = "AC"%string -> ya = 0)
    /\ (center_on = "PC"%string -> yp = 0).
Proof.
  intros Hap Hind Hc.
  destruct (origin_offsets a p Hc)
    as (ka & kp & Ea & Ep & Hk & Hmc & Hac & Hpc).
  rewrite (get_acpc_transformation_recognized _ _ _ Hc).
  exists (assembled (acpc_rotation (fin3 a) (fin3 p) (fin3 i))
            (spec_origin (fin3 a) (fin3 p) center_on)),
    (ka * Rnorm3 (Rsub3 a p)), (kp * Rnorm3 (Rsub3 a p)).
  split; [reflexivity |].
  rewrite !(apply_transform_fin _ Hap Hind Hc).
  unfold Rimage. rewrite Ea, Ep, !Rdot3_scale_r, !(Rdot3_offset Hap).
  rewrite (frame_x_y Hap Hind), (frame_y_unit Hap).
  rewrite (Rdot3_comm (frame_z a p i)), frame_y_z.
  split; [f_equal; f_equal; ring |].
  split; [f_equal; f_equal; ring |].
  split; [nra |].
  split; [intros E; rewrite (Hmc E); field |].
  split; [intros E; rewrite (Hac E); ring |].
  intros E. assert (kp = 0) by (specialize (Hpc E); lra). subst kp; ring.
Qed.

Lemma landmarks_on_y_axis_witness :
  scenario_ac <> scenario_pc
  /\ abs_offset_independent scenario_ac scenario_pc scenario_ih
  /\ recognized "MC"
  /\ exists m ya yp,
       get_acpc_transformation (fin3 scenario_ac) (fin3 scenario_pc)
         (fin3 scenario_ih) "MC" = Ok m
       /\ apply_transform m (fin3 scenario_ac) = fin3 (V3 0 ya 0)
       /\ apply_transform m (fin3 scenario_pc) = fin3 (V3 0 yp 0)
       /\ ya - yp = Rnorm3 (Rsub3 scenario_ac scenario_pc)
       /\ ("MC"%string = "MC"%string
           -> ya = Rnorm3 (Rsub3 scenario_ac scenario_pc) / 2)
       /\ ("MC"%string = "AC"%string -> ya = 0)
       /\ ("MC"%string = "PC"%string -> yp = 0).
Proof.
  split; [apply scenario_valid |].
  split; [apply scenario_valid |].
  split; [left; reflexivity |].
  apply landmarks_on_y_axis;
    [apply scenario_valid | apply scenario_valid | left; reflexivity].
Defined.

(** X4.  The reference point enters only through the component-wise
    absolute value of its offset from AC: two finite reference points with
    the same absolute offset give the same result, whatever the other
    arguments.  In particular a reference point and its mirror image
    through AC cannot be told apart. *)
Theorem reference_point_sign_blind (a p i i' : vec3 R) (center_on : string) :
  Rabs3 (Rsub3 i' a) = Rabs3 (Rsub3 i a) ->
  get_acpc_transformation (fin3 a) (fin3 p) (fin3 i') center_on
  = get_acpc_transformation (fin3 a) (fin3 p) (fin3 i) center_on.
Proof.
  intros E. rewrite !get_acpc_transformation_parts.
  assert (Er : acpc_rotation (fin3 a) (fin3 p) (fin3 i')
               = acpc_rotation (fin3 a) (fin3 p) (fin3 i)).
  { rewrite !acpc_rotation_spec. unfold spec_z, spec_x.
    rewrite !vec_sub_fin, !np_abs_fin, E. reflexivity. }
  rewrite Er. reflexivity.
Qed.

Lemma reference_point_sign_blind_witness :
  Rabs3 (Rsub3 (V3 (-10) 20 0) scenario_ac)
  = Rabs3 (Rsub3 scenario_ih scenario_ac)
  /\ get_acpc_transformation (fin3 scenario_ac) (fin3 scenario_pc)
       (fin3 (V3 (-10) 20 0)) "MC"
     = get_acpc_transformation (fin3 scenario_ac) (fin3 scenario_pc)
         (fin3 scenario_ih) "MC".
Proof.
  assert (E : Rabs3 (Rsub3 (V3 (-10) 20 0) scenario_ac)
              = Rabs3 (Rsub3 scenario_ih scenario_ac)).
  { unfold Rabs3, Rsub3, scenario_ac, scenario_ih; simpl.
    f_equal; eval_Rabs. }
  split; [exact E |].
  apply reference_point_sign_blind; exact E.
Defined.

Lemma Rsub3_shift (a p t : vec3 R) :
  Rsub3 (Radd3 a t) (Radd3 p t) = Rsub3 a p.
Proof.
  destruct a, p, t. unfold Rsub3, Radd3; simpl. f_equal; ring.
Qed.

Lemma origin_of_shift (a p t : vec3 R) (center_on : string) :
  origin_of (Radd3 a t) (Radd3 p t) center_on
  = Radd3 (origin_of a p center_on) t.
Proof.
  unfold origin_of.
  destruct (String.eqb center_on "MC").
  - destruct a, p, t. unfold Rdiv3, Radd3; simpl. f_equal; field.
  - destruct (String.eqb center_on "AC"); reflexivity.
Qed.

(** X5.  In exact arithmetic, moving AC, PC and the reference point by one
    and the same vector [t] leaves the rotation block unchanged, and the
    new transform sends [q + t] where the old one sends [q]: up to
    rounding, the result depends on the three points only through their
    relative positions. *)
Theorem translation_covariance (a p i t q : vec3 R) (center_on : string) :
  a <> p -> abs_offset_independent a p i -> recognized center_on ->
  exists m m',
    get_acpc_transformation (fin3 a) (fin3 p) (fin3 i) center_on = Ok m
    /\ get_acpc_transformation (fin3 (Radd3 a t)) (fin3 (Radd3 p t))
         (fin3 (Radd3 i t)) center_on = Ok m'
    /\ rotation_block m' = rotation_block m
    /\ apply_transform m' (fin3 (Radd3 q t)) = apply_transform m (fin3 q).
Proof.
  intros Hap Hind Hc.
  assert (Hap' : Radd3 a t <> Radd3 p t).
  { intros E. apply (Rsub3_nonzero Hap).
    rewrite <- (Rsub3_shift a p t), E. apply Rsub3_diag. }
  assert (Hind' : abs_offset_independent (Radd3 a t) (Radd3 p t) (Radd3 i t)).
  { unfold abs_offset_independent. rewrite !Rsub3_shift. exact Hind. }
  assert (Ey : frame_y (Radd3 a t) (Radd3 p t) = frame_y a p).
  { unfold frame_y. rewrite Rsub3_shift. reflexivity. }
  assert (Ex : frame_x (Radd3 a t) (Radd3 p t) (Radd3 i t) = frame_x a p i).
  { unfold frame_x, frame_cross. rewrite Ey, Rsub3_shift. reflexivity. }
  assert (Ez : frame_z (Radd3 a t) (Radd3 p t) (Radd3 i t) = frame_z a p i).
  { unfold frame_z. rewrite Ex, Ey. reflexivity. }
  rewrite !(get_acpc_transformation_recognized _ _ _ Hc).
  eexists; eexists. split; [reflexivity |]. split; [reflexivity |].
  rewrite (apply_transform_fin _ Hap' Hind' Hc).
  rewrite (apply_transform_fin _ Hap Hind Hc).
  rewrite !rotation_block_assembled.
  rewrite (acpc_rotation_fin Hap' Hind'), (acpc_rotation_fin Hap Hind).
  rewrite Ex, Ey, Ez, origin_of_shift.
  split; [reflexivity |].
  unfold Rimage. rewrite Rsub3_shift. reflexivity.
Qed.

Lemma translation_covariance_witness :
  scenario_ac <> scenario_pc
  /\ abs_offset_independent scenario_ac scenario_pc scenario_ih
  /\ recognized "PC"
  /\ exists m m',
       get_acpc_transformation (fin3 scenario_ac) (fin3 scenario_pc)
         (fin3 scenario_ih) "PC" = Ok m
       /\ get_acpc_transformation (fin3 (Radd3 scenario_ac skew_ih))
            (fin3 (Radd3 scenario_pc skew_ih))
            (fin3 (Radd3 scenario_ih skew_ih)) "PC" = Ok m'
       /\ rotation_block m' = rotation_block m
       /\ apply_transform m' (fin3 (Radd3 skew_ac skew_ih))
          = apply_transform m (fin3 skew_ac).
Proof.
  split; [apply scenario_valid |].
  split; [apply scenario_valid |].
  split; [right; right; reflexivity |].
  apply translation_covariance;
    [apply scenario_valid | apply scenario_valid | right; right; reflexivity].
Defined.

Lemma Rsub3_scale (s : R) (a p : vec3 R) :
  Rsub3 (Rscale3 s a) (Rscale3 s p) = Rscale3 s (Rsub3 a p).
Proof. destruct a, p. unfold Rsub3, Rscale3; simpl. f_equal; ring. Qed.

Lemma Rnorm3_scale (s : R) (v : vec3 R) :
  0 <= s -> Rnorm3 (Rscale3 s v) = s * Rnorm3 v.
Proof.
  intros Hs. unfold Rnorm3.
  replace (Rdot3 (Rscale3 s v) (Rscale3 s v)) with (s * s * Rdot3 v v)
    by (destruct v; unfold Rdot3, Rscale3; simpl; ring).
  rewrite sqrt_mult by (try apply Rdot3_self_nonneg; nra).
  rewrite sqrt_square by exact Hs. reflexivity.
Qed.

Lemma Rdiv3_scale (s n : R) (v : vec3 R) :
  s <> 0 -> n <> 0 -> Rdiv3 (Rscale3 s v) (s * n) = Rdiv3 v n.
Proof.
  intros Hs Hn. destruct v. unfold Rdiv3, Rscale3; simpl.
  f_equal; field; split; assumption.
Qed.

Lemma Rabs3_scale (s : R) (v : vec3 R) :
  0 <= s -> Rabs3 (Rscale3 s v) = Rscale3 s (Rabs3 v).
Proof.
  intros Hs. destruct v. unfold Rabs3, Rscale3; simpl.
  rewrite !Rabs_mult, (Rabs_right s) by lra. reflexivity.
Qed.

Lemma Rcross3_scale_r (s : R) (u v : vec3 R) :
  Rcross3 u (Rscale3 s v) = Rscale3 s (Rcross3 u v).
Proof. destruct u, v. unfold Rcross3, Rscale3; simpl. f_equal; ring. Qed.

Lemma Rcross3_scale_l (s : R) (u v : vec3 R) :
  Rcross3 (Rscale3 s u) v = Rscale3 s (Rcross3 u v).
Proof. destruct u, v. unfold Rcross3, Rscale3; simpl. f_equal; ring. Qed.

Lemma Rscale3_nonzero (s : R) (v : vec3 R) :
  s <> 0 -> v <> Rzero3 -> Rscale3 s v <> Rzero3.
Proof.
  intros Hs Hv E. apply Hv. destruct v as [v0 v1 v2].
  unfold Rscale3, Rzero3 in *; simpl in *. injection E as E0 E1 E2.
  f_equal; nra.
Qed.

(** X7.  In exact arithmetic, rescaling AC, PC and the reference point by
    one positive factor (a change of the unit of length) leaves the
    rotation block unchanged. *)
Theorem rotation_scale_invariant (s : R) (a p i : vec3 R)
    (center_on : string) :
  0 < s -> a <> p -> abs_offset_independent a p i -> recognized center_on ->
  exists m m',
    get_acpc_transformation (fin3 a) (fin3 p) (fin3 i) center_on = Ok m
    /\ get_acpc_transformation (fin3 (Rscale3 s a)) (fin3 (Rscale3 s p))
         (fin3 (Rscale3 s i)) center_on = Ok m'
    /\ rotation_block m' = rotation_block m.
Proof.
  intros Hs Hap Hind Hc.
  pose proof (Rnorm3_pos (Rsub3_nonzero Hap)) as Hn.
  assert (Hs0 : s <> 0) by lra.
  assert (Hap' : Rscale3 s a <> Rscale3 s p).
  { intros E. apply (Rscale3_nonzero Hs0 (Rsub3_nonzero Hap)).
    rewrite <- Rsub3_scale, E. apply Rsub3_diag. }
  assert (Ey : frame_y (Rscale3 s a) (Rscale3 s p) = frame_y a p).
  { unfold frame_y. rewrite Rsub3_scale, Rnorm3_scale by lra.
    apply Rdiv3_scale; lra. }
  assert (Ec : frame_cross (Rscale3 s a) (Rscale3 s p) (Rscale3 s i)
               = Rscale3 s (frame_cross a p i)).
  { unfold frame_cross.
    rewrite Ey, Rsub3_scale, Rabs3_scale, Rcross3_scale_r by lra.
    reflexivity. }
  pose proof (frame_cross_nonzero Hap Hind) as Hc0.
  pose proof (Rnorm3_pos Hc0) as Hcn.
  assert (Hind' : abs_offset_independent (Rscale3 s a) (Rscale3 s p)
                    (Rscale3 s i)).
  { unfold abs_offset_independent.
    rewrite !Rsub3_scale, Rabs3_scale, Rcross3_scale_r, Rcross3_scale_l
      by lra.
    apply Rscale3_nonzero; [exact Hs0 |].
    apply Rscale3_nonzero; [exact Hs0 | exact Hind]. }
  assert (Ex : frame_x (Rscale3 s a) (Rscale3 s p) (Rscale3 s i)
               = frame_x a p i).
  { unfold frame_x. rewrite Ec, Rnorm3_scale by lra.
    apply Rdiv3_scale; lra. }
  rewrite !(get_acpc_transformation_recognized _ _ _ Hc).
  eexists; eexists. split; [reflexivity |]. split; [reflexivity |].
  rewrite !rotation_block_assembled.
  rewrite (acpc_rotation_fin Hap' Hind'), (acpc_rotation_fin Hap Hind).
  unfold frame_z. rewrite Ex, Ey. reflexivity.
Qed.

Lemma rotation_scale_invariant_witness :
  0 < 10
  /\ scenario_ac <> scenario_pc
  /\ abs_offset_independent scenario_ac scenario_pc scenario_ih
  /\ recognized "MC"
  /\ exists m m',
       get_acpc_transformation (fin3 scenario_ac) (fin3 scenario_pc)
         (fin3 scenario_ih) "MC" = Ok m
       /\ get_acpc_transformation (fin3 (Rscale3 10 scenario_ac))
            (fin3 (Rscale3 10 scenario_pc)) (fin3 (Rscale3 10 scenario_ih))
            "MC" = Ok m'
       /\ rotation_block m' = rotation_block m.
Proof.
  split; [lra |].
  split; [apply scenario_valid |].
  split; [apply scenario_valid |].
  split; [left; reflexivity |].
  apply rotation_scale_invariant;
    [lra | apply scenario_valid | apply scenario_valid | left; reflexivity].
Defined.

(** The Y row needs only AC distinct from PC. *)
Lemma acpc_rotation_y_row (a p : vec3 R) (ih : vec3 npf) :
  a <> p -> r1 (acpc_rotation (fin3 a) (fin3 p) ih) = fin3 (frame_y a p).
Proof.
  intros Hap. rewrite acpc_rotation_spec. cbn [r1].
  unfold spec_y. rewrite vec_sub_fin.
  apply normalize_fin, Rsub3_nonzero, Hap.
Qed.




(** X9.  In exact arithmetic, however the line was drawn, when its end
    points differ in Y the Y row of the rotation has a strictly positive Y
    component: the new Y axis points towards anterior. *)
Theorem y_axis_points_anterior (s e : vec3 R) (ih : vec3 npf)
    (center_on : string) :
  c1 s <> c1 e -> recognized center_on ->
  exists m y,
    process_transform (line_of s e) ih center_on = Ok m
    /\ rotation_row m 1 = fin3 y
    /\ 0 < c1 y.
Proof.
  intros Hy Hc.
  assert (Hpos : forall a p : vec3 R, c1 a > c1 p ->
            exists m y,
              get_acpc_transformation (fin3 a) (fin3 p) ih center_on = Ok m
              /\ rotation_row m 1 = fin3 y /\ 0 < c1 y).
  { intros a p Hgt.
    assert (Hap : a <> p) by (intros E; subst p; lra).
    pose proof (Rnorm3_pos (Rsub3_nonzero Hap)) as Hn.
    rewrite (get_acpc_transformation_recognized _ _ _ Hc).
    eexists; exists (frame_y a p). split; [reflexivity |].
    destruct (rotation_row_assembled (acpc_rotation (fin3 a) (fin3 p) ih)
                (spec_origin (fin3 a) (fin3 p) center_on)) as (_ & E1 & _).
    rewrite E1, (acpc_rotation_y_row ih Hap). split; [reflexivity |].
    unfold frame_y, Rdiv3; cbn [c1].
    apply Rdiv_lt_0_compat; [unfold Rsub3; simpl; lra | exact Hn]. }
  unfold process_transform.
  destruct (Rgt_dec (c1 s) (c1 e)) as [Hgt | Hng].
  - rewrite (get_acpc_points_start s e Hgt). apply Hpos; exact Hgt.
  - rewrite (get_acpc_points_end s e Hng). apply Hpos; lra.
Qed.

Lemma y_axis_points_anterior_witness :
  c1 scenario_pc <> c1 scenario_ac
  /\ recognized "AC"
  /\ exists m y,
       process_transform (line_of scenario_pc scenario_ac) (fin3 scenario_ih)
         "AC" = Ok m
       /\ rotation_row m 1 = fin3 y
       /\ 0 < c1 y.
Proof.
  split; [simpl; lra |].
  split; [right; left; reflexivity |].
  apply y_axis_points_anterior; [simpl; lra | right; left; reflexivity].
Defined.

Lemma Rdot3_cross_cycle (x y d : vec3 R) :
  Rdot3 (Rcross3 x y) d = Rdot3 x (Rcross3 y d).
Proof. destruct x, y, d. unfold Rdot3, Rcross3; simpl. ring. Qed.

(** X10.  In exact arithmetic, for a valid input the X row of the rotation
    is orthogonal to the absolute offset [|ih - ac|] and the Z row has a
    strictly positive dot product with it: the Z axis leans towards the
    component-wise absolute value of the offset, on whichever side of AC
    the reference point was picked. *)
Theorem z_axis_leans_to_absolute_offset (a p i : vec3 R)
    (center_on : string) :
  a <> p -> abs_offset_independent a p i -> recognized center_on ->
  exists m r,
    get_acpc_transformation (fin3 a) (fin3 p) (fin3 i) center_on = Ok m
    /\ np_dot (rotation_row m 0) (np_abs (vec_sub (fin3 i) (fin3 a))) = Fin 0
    /\ np_dot (rotation_row m 2) (np_abs (vec_sub (fin3 i) (fin3 a))) = Fin r
    /\ 0 < r.
Proof.
  intros Hap Hind Hc.
  pose proof (frame_cross_nonzero Hap Hind) as Hc0.
  pose proof (Rnorm3_pos Hc0) as Hn.
  rewrite (get_acpc_transformation_recognized _ _ _ Hc).
  eexists; exists (Rnorm3 (frame_cross a p i)). split; [reflexivity |].
  destruct (rotation_row_assembled
              (acpc_rotation (fin3 a) (fin3 p) (fin3 i))
              (spec_origin (fin3 a) (fin3 p) center_on)) as (E0 & _ & E2).
  rewrite E0, E2, (acpc_rotation_fin Hap Hind). cbn [r0 r2].
  rewrite vec_sub_fin, np_abs_fin, !np_dot_fin.
  split; [| split; [| exact Hn]].
  - f_equal. unfold frame_x. rewrite Rdot3_div_l by lra.
    unfold frame_cross at 1. rewrite Rcross3_dot_r. field; lra.
  - f_equal. unfold frame_z. rewrite Rdot3_cross_cycle.
    fold (frame_cross a p i). unfold frame_x.
    rewrite Rdot3_div_l by lra. rewrite <- Rnorm3_sqr. field; lra.
Qed.

Lemma z_axis_leans_to_absolute_offset_witness :
  scenario_ac <> scenario_pc
  /\ abs_offset_independent scenario_ac scenario_pc scenario_ih
  /\ recognized "MC"
  /\ exists m r,
       get_acpc_transformation (fin3 scenario_ac) (fin3 scenario_pc)
         (fin3 scenario_ih) "MC" = Ok m
       /\ np_dot (rotation_row m 0)
            (np_abs (vec_sub (fin3 scenario_ih) (fin3 scenario_ac))) = Fin 0
       /\ np_dot (rotation_row m 2)
            (np_abs (vec_sub (fin3 scenario_ih) (fin3 scenario_ac))) = Fin r
       /\ 0 < r.
Proof.
  split; [apply scenario_valid |].
  split; [apply scenario_valid |].
  split; [left; reflexivity |].
  apply z_axis_leans_to_absolute_offset;
    [apply scenario_valid | apply scenario_valid | left; reflexivity].
Defined.

(** ** Properties of [process] *)

Section ProcessFacts.

Context {F : Type} `{NumpyScalar F}.

Lemma reset_slice_views_outcome (widgets : option (string -> bool))
    (views : list (string * string)) (e : exn) :
  snd (reset_slice_views (F:=F) widgets views) <> Some (OfValueError e).
Proof.
  induction views as [| [name orientation] rest IH]; simpl.
  - discriminate.
  - destruct widgets as [exists_widget |]; [| discriminate].
    destruct (exists_widget name); [| discriminate].
    destruct (reset_slice_views (Some exists_widget) rest) as [calls outcome].
    exact IH.
Qed.

Lemma reset_slice_views_calls (widgets : option (string -> bool))
    (views : list (string * string)) (call : host_call F) :
  In call (fst (reset_slice_views widgets views)) ->
  exists name orientation, call = setSliceOrientation name orientation.
Proof.
  induction views as [| [name orientation] rest IH]; simpl.
  - intros [].
  - destruct widgets as [exists_widget |]; [| intros []].
    destruct (exists_widget name); [| intros []].
    destruct (reset_slice_views (Some exists_widget) rest) as [calls outcome].
    simpl in *. intros [E | Hin].
    + exists name, orientation. symmetry; exact E.
    + apply IH, Hin.
Qed.

Lemma observe_items_in (items : list (option (node_id * bool)))
    (t n tid : node_id) :
  In (SetAndObserveTransformNodeID (F:=F) n tid) (observe_items items t)
  <-> tid = t /\ In (Some (n, true)) items.
Proof.
  induction items as [| item rest IH]; simpl.
  - split; [intros [] | intros [_ []]].
  - destruct item as [[node [|]] |]; simpl; rewrite ?IH.
    + split.
      * intros [E | [Et Hin]].
        -- injection E as En Et. subst.
           split; [reflexivity | left; reflexivity].
        -- split; [exact Et | right; exact Hin].
      * intros [Et [E | Hin]].
        -- injection E as En. subst. left; reflexivity.
        -- right; split; assumption.
    + split.
      * intros [Et Hin]. split; [exact Et | right; exact Hin].
      * intros [Et [E | Hin]]; [discriminate | split; assumption].
    + split.
      * intros [Et Hin]. split; [exact Et | right; exact Hin].
      * intros [Et [E | Hin]]; [discriminate | split; assumption].
Qed.

Lemma observe_items_calls (items : list (option (node_id * bool)))
    (t : node_id) (call : host_call F) :
  In call (observe_items items t) ->
  exists n, call = SetAndObserveTransformNodeID n t.
Proof.
  induction items as [| item rest IH]; simpl; [intros [] |].
  destruct item as [[node [|]] |]; simpl; try exact IH.
  intros [E | Hin]; [exists node; symmetry; exact E | apply IH, Hin].
Qed.

Lemma observe_volume_in (volume : option node_id) (t : node_id)
    (call : host_call F) :
  In call (observe_volume volume t)
  <-> exists v, volume = Some v /\ call = SetAndObserveTransformNodeID v t.
Proof.
  destruct volume as [v |]; simpl.
  - split.
    + intros [E | []]. exists v; split; [reflexivity | symmetry; exact E].
    + intros (v' & Ev & Ec). injection Ev as Ev. subst. left; reflexivity.
  - split; [intros [] | intros (v & Ev & _); discriminate].
Qed.

End ProcessFacts.

Section ProcessCases.

Context {F : Type} `{NumpyScalar F}.

Variable scene : Scene.
Variables (line : LineNode F) (midline : FiducialNode F).
Variables (centerOn : string) (folderNode : option node_id).

Lemma process_no_line (midlinePoints : option (FiducialNode F))
    (outputTransform : option node_id) :
  process scene None midlinePoints outputTransform centerOn folderNode
  = ([print_folder folderNode],
     Some (OfValueError
             (ValueError
                "You must provide both an AC-PC line and a midline plane."))).
Proof. reflexivity. Qed.

Lemma process_no_midline (outputTransform : option node_id) :
  process scene (Some line) None outputTransform centerOn folderNode
  = ([print_folder folderNode],
     Some (OfValueError
             (ValueError
                "You must provide both an AC-PC line and a midline plane."))).
Proof. reflexivity. Qed.

Lemma process_kernel_raises (outputTransform : option node_id) (e : exn) :
  process_transform (line_of_node line)
    (GetNthControlPointPosition midline 0) centerOn = Raise e ->
  process scene (Some line) (Some midline) outputTransform centerOn folderNode
  = ([print_folder folderNode], Some (OfValueError e)).
Proof.
  unfold process_transform, process.
  destruct (get_acpc_points (line_of_node line)) as [ac pc].
  intros E. rewrite E. reflexivity.
Qed.

Lemma process_no_output (transform : mat4 F) :
  process_transform (line_of_node line)
    (GetNthControlPointPosition midline 0) centerOn = Ok transform ->
  process scene (Some line) (Some midline) None centerOn folderNode
  = ([print_folder folderNode],
     Some (AttributeError "SetMatrixTransformToParent")).
Proof.
  unfold process_transform, process.
  destruct (get_acpc_points (line_of_node line)) as [ac pc].
  intros E. rewrite E. reflexivity.
Qed.

(** The calls of a run that got as far as the output transform. *)
Lemma process_applied (output : node_id) (transform : mat4 F) :
  process_transform (line_of_node line)
    (GetNthControlPointPosition midline 0) centerOn = Ok transform ->
  process scene (Some line) (Some midline) (Some output) centerOn folderNode
  = ([print_folder folderNode]
       ++ ([SetMatrixTransformToParent output transform;
            SetAndObserveTransformNodeID (line_id line) output;
            SetAndObserveTransformNodeID (fiducial_id midline) output]
           ++ observe_volume (red_foreground scene) output
           ++ observe_volume (red_background scene) output
           ++ match folderNode with
              | Some folder => observe_items (folder_items scene folder) output
              | None => []
              end)
       ++ fst (reset_slice_views (F:=F) (slice_widgets scene) canonical_views),
     snd (reset_slice_views (F:=F) (slice_widgets scene) canonical_views)).
Proof.
  unfold process_transform, process.
  destruct (get_acpc_points (line_of_node line)) as [ac pc].
  intros E. rewrite E.
  destruct (reset_slice_views (slice_widgets scene) canonical_views).
  reflexivity.
Qed.

Lemma process_transform_recognized :
  recognized centerOn ->
  exists transform,
    process_transform (line_of_node line)
      (GetNthControlPointPosition midline 0) centerOn = Ok transform.
Proof.
  intros Hc. unfold process_transform.
  destruct (get_acpc_points (line_of_node line)) as [ac pc].
  rewrite (get_acpc_transformation_recognized ac pc _ Hc).
  eexists; reflexivity.
Qed.

Lemma process_transform_unrecognized :
  ~ recognized centerOn ->
  process_transform (line_of_node line)
    (GetNthControlPointPosition midline 0) centerOn
  = Raise (ValueError "center_on must be 'MC', 'AC', or 'PC'").
Proof.
  intros Hn. unfold process_transform.
  destruct (get_acpc_points (line_of_node line)) as [ac pc].
  apply (get_acpc_transformation_unrecognized ac pc _ Hn).
Qed.

End ProcessCases.

(** X11.  [process] raises a ValueError exactly when the line or the
    midline markup is missing or the centring mode is none of "MC", "AC",
    "PC"; and whenever it raises a ValueError it has made no call on the
    scene: apart from the print, nothing has happened. *)
Theorem process_value_error (F : Type) (S : NumpyScalar F) (scene : Scene)
    (acpcLine : option (LineNode F)) (midlinePoints : option (FiducialNode F))
    (outputTransform : option node_id) (centerOn : string)
    (folderNode : option node_id) :
  ((exists e,
      snd (process scene acpcLine midlinePoints outputTransform centerOn
             folderNode) = Some (OfValueError e))
   <-> acpcLine = None \/ midlinePoints = None \/ ~ recognized centerOn)
  /\ (forall e,
        snd (process scene acpcLine midlinePoints outputTransform centerOn
               folderNode) = Some (OfValueError e) ->
        fst (process scene acpcLine midlinePoints outputTransform centerOn
               folderNode) = [print_folder folderNode]).
Proof.
  destruct acpcLine as [line |].
  2:{ rewrite process_no_line. cbn [fst snd]. split; [| reflexivity].
      split; [intros _; left; reflexivity | intros _; eexists; reflexivity]. }
  destruct midlinePoints as [midline |].
  2:{ rewrite process_no_midline. cbn [fst snd]. split; [| reflexivity].
      split; [intros _; right; left; reflexivity |].
      intros _; eexists; reflexivity. }
  destruct (recognized_dec centerOn) as [Hc | Hn].
  - destruct (process_transform_recognized line midline Hc) as [transform Hk].
    assert (Hno : forall e,
              snd (process scene (Some line) (Some midline) outputTransform
                     centerOn folderNode) <> Some (OfValueError e)).
    { intros e. destruct outputTransform as [output |].
      - rewrite (process_applied scene _ _ _ folderNode output Hk).
        cbn [snd]. apply reset_slice_views_outcome.
      - rewrite (process_no_output scene _ _ _ folderNode Hk).
        cbn [snd]. discriminate. }
    split.
    + split.
      * intros [e E]. exfalso. exact (Hno e E).
      * intros [E | [E | Hn]]; try discriminate. contradiction.
    + intros e E. exfalso. exact (Hno e E).
  - rewrite (process_kernel_raises scene _ _ _ folderNode outputTransform
               (process_transform_unrecognized line midline Hn)).
    cbn [fst snd]. split; [| reflexivity].
    split; [intros _; right; right; exact Hn | intros _; eexists; reflexivity].
Qed.

(** X12.  Without an output transform node [process] makes no call on the
    scene and always raises; with both markups and a recognised mode the
    exception is the AttributeError of the first method it calls on the
    missing node. *)
Theorem process_without_output (F : Type) (S : NumpyScalar F) (scene : Scene)
    (acpcLine : option (LineNode F)) (midlinePoints : option (FiducialNode F))
    (centerOn : string) (folderNode : option node_id) :
  fst (process scene acpcLine midlinePoints None centerOn folderNode)
  = [print_folder folderNode]
  /\ snd (process scene acpcLine midlinePoints None centerOn folderNode)
     <> None
  /\ (acpcLine <> None -> midlinePoints <> None -> recognized centerOn ->
      snd (process scene acpcLine midlinePoints None centerOn folderNode)
      = Some (AttributeError "SetMatrixTransformToParent")).
Proof.
  destruct acpcLine as [line |].
  2:{ rewrite process_no_line. cbn [fst snd].
      repeat split; [discriminate | intros N; contradiction N; reflexivity]. }
  destruct midlinePoints as [midline |].
  2:{ rewrite process_no_midline. cbn [fst snd].
      repeat split; [discriminate |].
      intros _ N; contradiction N; reflexivity. }
  destruct (recognized_dec centerOn) as [Hc | Hn].
  - destruct (process_transform_recognized line midline Hc) as [transform Hk].
    rewrite (process_no_output scene _ _ _ folderNode Hk).
    cbn [fst snd]. repeat split. discriminate.
  - rewrite (process_kernel_raises scene _ _ _ folderNode None
               (process_transform_unrecognized line midline Hn)).
    cbn [fst snd]. repeat split; [discriminate | intros; contradiction].
Qed.

(** X13.  When the line, the midline markup and the output transform are
    given and the mode is recognised, the nodes put under a transform are
    the line, the midline markup, the foreground and background volumes of
    the red view and the transformable data nodes of the folder's items,
    and no others; and the transform they are put under is always the
    output transform. *)
Theorem process_transformed_nodes (F : Type) (S : NumpyScalar F)
    (scene : Scene) (line : LineNode F) (midline : FiducialNode F)
    (output : node_id) (centerOn : string) (folderNode : option node_id)
    (n tid : node_id) :
  recognized centerOn ->
  (In (SetAndObserveTransformNodeID n tid)
      (fst (process scene (Some line) (Some midline) (Some output) centerOn
              folderNode))
   <-> tid = output
       /\ (n = line_id line
           \/ n = fiducial_id midline
           \/ red_foreground scene = Some n
           \/ red_background scene = Some n
           \/ exists folder,
                folderNode = Some folder
                /\ In (Some (n, true)) (folder_items scene folder))).
Proof.
  intros Hc.
  destruct (process_transform_recognized line midline Hc) as [transform Hk].
  rewrite (process_applied scene _ _ _ folderNode output Hk).
  cbn [fst]. rewrite !in_app_iff, !observe_volume_in.
  split.
  - intros [Hp | [[Hm | [Hf | [Hb | Hi]]] | Hr]].
    + destruct Hp as [E | []]; discriminate.
    + destruct Hm as [E | [E | [E | []]]]; try discriminate.
      * injection E as En Et. subst. split; [reflexivity | left; reflexivity].
      * injection E as En Et. subst.
        split; [reflexivity | right; left; reflexivity].
    + destruct Hf as (v & Ev & E). injection E as En Et. subst.
      split; [reflexivity | right; right; left; exact Ev].
    + destruct Hb as (v & Ev & E). injection E as En Et. subst.
      split; [reflexivity | right; right; right; left; exact Ev].
    + destruct folderNode as [folder |]; [| destruct Hi].
      apply observe_items_in in Hi. destruct Hi as [Et Hin].
      split; [exact Et |]. right; right; right; right.
      exists folder; split; [reflexivity | exact Hin].
    + apply reset_slice_views_calls in Hr.
      destruct Hr as (name & orientation & E); discriminate.
  - intros [Et [En | [En | [Ef | [Eb | (folder & Efo & Hin)]]]]]; subst;
      right; left.
    + left. right; left; reflexivity.
    + left. right; right; left; reflexivity.
    + right; left. exists n; split; [exact Ef | reflexivity].
    + right; right; left. exists n; split; [exact Eb | reflexivity].
    + right; right; right. apply observe_items_in.
      split; [reflexivity | exact Hin].
Qed.

Lemma process_transformed_nodes_witness :
  recognized "MC"
  /\ (In (SetAndObserveTransformNodeID "N3" "T")
         (fst (process
                 {| red_foreground := None; red_background := None;
                    folder_items :=
                      fun _ => [Some ("N2", false); None; Some ("N3", true)];
                    slice_widgets := Some (fun _ => true) |}
                 (Some {| line_id := "L";
                          line_of_node := line_of scenario_ac scenario_pc |})
                 (Some {| fiducial_id := "P";
                          GetNthControlPointPosition :=
                            fun _ => fin3 scenario_ih |})
                 (Some "T") "MC" (Some "FOLDER")))
      <-> "T" = "T"
          /\ ("N3" = "L" \/ "N3" = "P" \/ None = Some "N3" \/ None = Some "N3"
              \/ exists folder,
                   Some "FOLDER" = Some folder
                   /\ In (Some ("N3", true))
                        [Some ("N2", false); None; Some ("N3", true)]))%string.
Proof.
  split; [left; reflexivity |].
  apply (@process_transformed_nodes npf exact_scalar
           {| red_foreground := None; red_background := None;
              folder_items :=
                fun _ => [Some ("N2", false); None; Some ("N3", true)]%string;
              slice_widgets := Some (fun _ => true) |}).
  left; reflexivity.
Defined.

(** X14.  With the line, the midline markup and the output transform
    given, [process] hands a matrix to the host exactly when the kernel,
    called on the classified end points and the first control point of the
    midline markup, returns one; the matrix handed over is that matrix and
    the node that receives it is the output transform. *)
Theorem process_sets_kernel_matrix (F : Type) (S : NumpyScalar F)
    (scene : Scene) (line : LineNode F) (midline : FiducialNode F)
    (output : node_id) (centerOn : string) (folderNode : option node_id)
    (receiver : node_id) (matrix : mat4 F) :
  In (SetMatrixTransformToParent receiver matrix)
     (fst (process scene (Some line) (Some midline) (Some output) centerOn
             folderNode))
  <-> receiver = output
      /\ process_transform (line_of_node line)
           (GetNthControlPointPosition midline 0) centerOn = Ok matrix.
Proof.
  destruct (process_transform (line_of_node line)
              (GetNthControlPointPosition midline 0) centerOn)
    as [transform | e] eqn:Hk.
  - rewrite (process_applied scene _ _ _ folderNode output Hk).
    cbn [fst]. rewrite !in_app_iff, !observe_volume_in.
    split.
    + intros [Hp | [[Hm | [Hf | [Hb | Hi]]] | Hr]].
      * destruct Hp as [E | []]; discriminate.
      * destruct Hm as [E | [E | [E | []]]]; try discriminate.
        injection E as Er Em. subst. split; reflexivity.
      * destruct Hf as (v & _ & E); discriminate.
      * destruct Hb as (v & _ & E); discriminate.
      * destruct folderNode as [folder |]; [| destruct Hi].
        apply observe_items_calls in Hi. destruct Hi as [k E]; discriminate.
      * apply reset_slice_views_calls in Hr.
        destruct Hr as (name & orientation & E); discriminate.
    + intros [Er Em]. injection Em as Em. subst.
      right; left; left. left; reflexivity.
  - rewrite (process_kernel_raises scene _ _ _ folderNode (Some output) Hk).
    cbn [fst]. split.
    + intros [E' | []]; discriminate.
    + intros [_ E']; discriminate.
Qed.

Lemma reset_slice_views_succeeds (F : Type)
    (widgets : option (string -> bool)) :
  snd (reset_slice_views (F:=F) widgets canonical_views) = None
  <-> exists exists_widget,
        widgets = Some exists_widget
        /\ exists_widget "Red"%string = true
        /\ exists_widget "Green"%string = true
        /\ exists_widget "Yellow"%string = true.
Proof.
  destruct widgets as [w |]; simpl.
  - destruct (w "Red"%string) eqn:Er; simpl.
    + destruct (w "Green"%string) eqn:Eg; simpl.
      * destruct (w "Yellow"%string) eqn:Ey; simpl.
        -- split; [intros _; exists w; repeat split; assumption | reflexivity].
        -- split; [discriminate |].
           intros (w' & Ew & _ & _ & Ey'). injection Ew as Ew; subst w'.
           rewrite Ey in Ey'; discriminate.
      * split; [discriminate |].
        intros (w' & Ew & _ & Eg' & _). injection Ew as Ew; subst w'.
        rewrite Eg in Eg'; discriminate.
    + split; [discriminate |].
      intros (w' & Ew & Er' & _). injection Ew as Ew; subst w'.
      rewrite Er in Er'; discriminate.
  - split; [discriminate | intros (w & Ew & _); discriminate].
Qed.

(** X15.  [process] runs to its end without an exception exactly when the
    line, the midline markup and the output transform are given, the mode
    is recognised, and the layout manager and its Red, Green and Yellow
    slice widgets exist.  The volumes of the red view and the folder play
    no part: a missing volume or an empty or missing folder never makes the
    run fail. *)
Theorem process_succeeds_iff (F : Type) (S : NumpyScalar F) (scene : Scene)
    (acpcLine : option (LineNode F)) (midlinePoints : option (FiducialNode F))
    (outputTransform : option node_id) (centerOn : string)
    (folderNode : option node_id) :
  snd (process scene acpcLine midlinePoints outputTransform centerOn
         folderNode) = None
  <-> acpcLine <> None /\ midlinePoints <> None /\ outputTransform <> None
      /\ recognized centerOn
      /\ exists exists_widget,
           slice_widgets scene = Some exists_widget
           /\ exists_widget "Red"%string = true
           /\ exists_widget "Green"%string = true
           /\ exists_widget "Yellow"%string = true.
Proof.
  rewrite <- (reset_slice_views_succeeds F (slice_widgets scene)).
  destruct acpcLine as [line |].
  2:{ rewrite process_no_line. cbn [snd].
      split; [discriminate | intros [N _]; contradiction N; reflexivity]. }
  destruct midlinePoints as [midline |].
  2:{ rewrite process_no_midline. cbn [snd].
      split; [discriminate |].
      intros (_ & N & _); contradiction N; reflexivity. }
  destruct (recognized_dec centerOn) as [Hc | Hn].
  - destruct (process_transform_recognized line midline Hc) as [transform Hk].
    destruct outputTransform as [output |].
    + rewrite (process_applied scene _ _ _ folderNode output Hk).
      cbn [snd]. split.
      * intros E. repeat split; try discriminate; assumption.
      * intros (_ & _ & _ & _ & E); exact E.
    + rewrite (process_no_output scene _ _ _ folderNode Hk).
      cbn [snd]. split; [discriminate |].
      intros (_ & _ & N & _); contradiction N; reflexivity.
  - rewrite (process_kernel_raises scene _ _ _ folderNode outputTransform
               (process_transform_unrecognized line midline Hn)).
    cbn [snd]. split; [discriminate |].
    intros (_ & _ & _ & Hc & _); contradiction.
Qed.

(** ** Properties of the widget *)

(** X16.  After [_updateButtonStates] the Apply button is enabled exactly
    when both inputs are selected and real-time update is unchecked, the
    real-time check box is enabled exactly when both inputs are selected,
    and it stays checked only if both inputs are selected; so Apply and
    real-time update are never both on, and a second update changes
    nothing. *)
Theorem button_states_after_update (p : ParameterNode) (ui : Buttons) :
  let ui' := _updateButtonStates p ui in
  applyButton_enabled ui'
  = (_checkInputsValid p && negb (realTimeUpdate_checked ui'))%bool
  /\ realTimeUpdate_enabled ui' = _checkInputsValid p
  /\ realTimeUpdate_checked ui'
     = (_checkInputsValid p && realTimeUpdate_checked ui)%bool
  /\ (applyButton_enabled ui' && realTimeUpdate_checked ui')%bool = false
  /\ _updateButtonStates p ui' = ui'.
Proof.
  unfold _updateButtonStates.
  destruct (_checkInputsValid p); destruct ui as [a t [|] e]; simpl;
    repeat split.
Qed.

(** X17.  The handler and [cleanup] read the current nodes anew each time.
    With no observer held, state 2 on the nodes [l], [k] adds one observer
    to each and runs Apply; whether or not Apply fails, a following state
    0, or [cleanup], with [l'], [k'] selected by then clears both fields
    and calls RemoveObserver with the stored tags on [l'] and [k'].  The
    tags thus come off the nodes they were added to exactly when neither
    selection has changed; a node that is no longer selected gets no
    RemoveObserver call and keeps its observer. *)
Theorem observers_round_trip (l k l' k' : node_id) (tl tk tl' tk' : tag)
    (apply_outcome apply_outcome' : option process_exn) :
  let start := {| acpc_observer := None; midpoint_observer := None |} in
  let checked :=
    onCheckboxStateChanged 2 (Some l) (Some k) tl tk apply_outcome start in
  let unchecked :=
    onCheckboxStateChanged 0 (Some l') (Some k') tl' tk' apply_outcome'
      (fst (fst checked)) in
  let closed := cleanup (Some l') (Some k') (fst (fst checked)) in
  snd (fst checked) = [AddObserver l tl; AddObserver k tk; onApplyButton]
  /\ snd checked = apply_outcome
  /\ unchecked
     = (start, [RemoveObserver l' (Some tl); RemoveObserver k' (Some tk)],
        None)
  /\ closed
     = (start,
        [removeObservers; RemoveObserver l' (Some tl);
         RemoveObserver k' (Some tk)],
        None)
  /\ (snd (fst unchecked)
      = [RemoveObserver l (Some tl); RemoveObserver k (Some tk)]
      <-> l' = l /\ k' = k)
  /\ (l <> l' -> l <> k' ->
      forall t,
        ~ In (RemoveObserver l t) (snd (fst unchecked))
        /\ ~ In (RemoveObserver l t) (snd (fst closed))).
Proof.
  cbv zeta. cbn.
  split; [reflexivity |]. split; [reflexivity |].
  split; [reflexivity |]. split; [reflexivity |].
  split.
  - split.
    + intros E. injection E as El Ek. split; assumption.
    + intros [El Ek]. subst. reflexivity.
  - intros Hl Hk t. split.
    + intros [E | [E | []]]; injection E as En _; congruence.
    + intros [E | [E | [E | []]]]; try discriminate;
        injection E as En _; congruence.
Qed.

(** X18.  While both markup nodes are selected the handler keeps the two
    observer fields paired (both set or both empty) for every state value,
    and the only exception it can end with is the one Apply lets through;
    and while observers are held, state 2 makes no call and changes
    nothing, so no node ever gets a second observer. *)
Theorem observers_stay_paired (state : Z) (l k : node_id) (tl tk : tag)
    (apply_outcome : option process_exn) (w : Observers) :
  paired w ->
  let r :=
    onCheckboxStateChanged state (Some l) (Some k) tl tk apply_outcome w in
  paired (fst (fst r))
  /\ (snd r = None \/ (In onApplyButton (snd (fst r)) /\ snd r = apply_outcome))
  /\ (state = 2%Z -> acpc_observer w <> None -> r = (w, [], None)).
Proof.
  unfold paired, onCheckboxStateChanged.
  destruct w as [[a |] [m |]]; simpl; intros Hp.
  - destruct (Z.eqb_spec state 2) as [E2 | N2];
      destruct (Z.eqb_spec state 0) as [E0 | N0]; simpl.
    + exfalso; lia.
    + split; [tauto |]. split; [left; reflexivity | reflexivity].
    + split; [tauto |]. split; [left; reflexivity |].
      intros E; contradiction.
    + split; [tauto |]. split; [left; reflexivity | reflexivity].
  - exfalso. destruct Hp as [_ Hp]. discriminate (Hp eq_refl).
  - exfalso. destruct Hp as [Hp _]. discriminate (Hp eq_refl).
  - destruct (Z.eqb_spec state 2) as [E2 | N2];
      [| destruct (Z.eqb_spec state 0) as [E0 | N0]]; simpl.
    + split; [split; discriminate |].
      split; [| intros _ N; contradiction N; reflexivity].
      right. split; [right; right; left; reflexivity | reflexivity].
    + split; [tauto |]. split; [left; reflexivity |].
      intros E; contradiction.
    + split; [tauto |]. split; [left; reflexivity |].
      intros E; contradiction.
Qed.

Lemma observers_stay_paired_witness :
  paired {| acpc_observer := Some 4%nat; midpoint_observer := Some 5%nat |}
  /\ onCheckboxStateChanged 2 (Some "L"%string) (Some "P"%string) 6%nat 7%nat
       None
       {| acpc_observer := Some 4%nat; midpoint_observer := Some 5%nat |}
     = ({| acpc_observer := Some 4%nat; midpoint_observer := Some 5%nat |},
        [], None).
Proof.
  assert (Hp : paired {| acpc_observer := Some 4%nat;
                         midpoint_observer := Some 5%nat |}).
  { unfold paired; simpl. split; discriminate. }
  split; [exact Hp |].
  apply (observers_stay_paired 2 "L"%string "P"%string 6%nat 7%nat None Hp);
    [reflexivity | discriminate].
Defined.

(** X19.  Unchecking while a markup node is not selected raises the
    AttributeError of [RemoveObserver] before the fields are cleared, so
    the stored tags stay; and as long as they stay, checking the box again
    adds no observer and does not run Apply, whichever nodes are selected
    by then. *)
Theorem stale_observers_block_registration (line midline : option node_id)
    (tl tk tl' tk' : tag) (apply_outcome apply_outcome' : option process_exn)
    (line' midline' : option node_id) (w : Observers) :
  line = None \/ midline = None ->
  acpc_observer w <> None ->
  let r := onCheckboxStateChanged 0 line midline tl tk apply_outcome w in
  snd r = Some (AttributeError "RemoveObserver")
  /\ fst (fst r) = w
  /\ onCheckboxStateChanged 2 line' midline' tl' tk' apply_outcome'
       (fst (fst r))
     = (w, [], None).
Proof.
  intros Hmiss Ha.
  destruct w as [[a |] m]; [| contradiction Ha; reflexivity].
  unfold onCheckboxStateChanged; simpl.
  destruct line as [l |]; [destruct midline as [k |] |]; simpl.
  - destruct Hmiss; discriminate.
  - repeat split.
  - repeat split.
Qed.

Lemma stale_observers_block_registration_witness :
  ((None : option node_id) = None \/ Some "P"%string = None)
  /\ acpc_observer
       {| acpc_observer := Some 4%nat; midpoint_observer := Some 5%nat |}
     <> None
  /\ onCheckboxStateChanged 2 (Some "L"%string) (Some "P"%string) 6%nat 7%nat
       None
       (fst (fst (onCheckboxStateChanged 0 None (Some "P"%string) 0%nat 0%nat
                    None
                    {| acpc_observer := Some 4%nat;
                       midpoint_observer := Some 5%nat |})))
     = ({| acpc_observer := Some 4%nat; midpoint_observer := Some 5%nat |},
        [], None).
Proof.
  split; [left; reflexivity |].
  split; [discriminate |].
  apply (@stale_observers_block_registration None (Some "P"%string)
           0%nat 0%nat 6%nat 7%nat None None (Some "L"%string)
           (Some "P"%string)
           {| acpc_observer := Some 4%nat; midpoint_observer := Some 5%nat |});
    [left; reflexivity | discriminate].
Defined.

(** [process] on binary64 numbers, with a folder of three items of which
    one is transformable and a red view without volumes. *)
Example process_float64 :
  process
    {| red_foreground := None; red_background := None;
       folder_items :=
         fun _ => [Some ("N2", false); None; Some ("N3", true)]%string;
       slice_widgets := Some (fun _ => true) |}
    (Some {| line_id := "L"%string;
             line_of_node := Line (V3 0 (-10) 0)%float (V3 0 10 0)%float |})
    (Some {| fiducial_id := "P"%string;
             GetNthControlPointPosition := fun _ => (V3 10 0 0)%float |})
    (Some "T"%string) "MC" (Some "FOLDER"%string)
  = ([print_folder (Some "FOLDER");
      SetMatrixTransformToParent "T"
        [[0; 0; -1; -0]; [0; 1; 0; -0]; [1; -0; 0; -0]; [0; 0; 0; 1]]%float;
      SetAndObserveTransformNodeID "L" "T";
      SetAndObserveTransformNodeID "P" "T";
      SetAndObserveTransformNodeID "N3" "T";
      setSliceOrientation "Red" "Axial";
      setSliceOrientation "Green" "Coronal";
      setSliceOrientation "Yellow" "Sagittal"]%string,
     None).
Proof. vm_compute. reflexivity. Qed.
